(** * SnailyCAD API: weapon registry, name-change requests, active-officer resolution

    A shallow embedding of three pieces of the API server:

    - [WeaponController]            (controllers/citizen/WeaponController.ts)
    - [NameChangeRequestController] (second document of the same source file)
    - [getActiveOfficer]            (the active-officer resolver)

    The ORM client ([prisma]) is modelled as tables held in lists, in insertion
    order; every query of the controllers is written as the list operation it
    stands for.  Controllers are programs of a small state-and-exception monad:
    a call either returns, throws one of the framework's exceptions, or is
    still pending when the recursion budget is used up.  Helpers imported from
    modules that are not part of these sources ([validateSchema],
    [canManageInvariant], [hasPermission], ...) are fields of an environment
    class, so that every theorem holds for any implementation of them. *)

From Stdlib Require Import List String Ascii Bool Arith ZArith Lia.
From Stdlib Require Import Sorting.Sorted Sorting.Permutation.
Import ListNotations.
Local Open Scope string_scope.
Local Open Scope list_scope.

(* ------------------------------------------------------------------------- *)
(** ** JavaScript and SQL string helpers *)

(** Truthiness of a [string | null | undefined] value: only a non-empty string
    is truthy. *)
Definition truthy (s : option string) : bool :=
  match s with
  | Some s => negb (s =? "")
  | None => false
  end.

(** [a || null] on such a value. *)
Definition orNull (s : option string) : option string :=
  if truthy s then s else None.

(** Case folding used by the [mode: "insensitive"] string filters. *)
Definition toLower (c : ascii) : ascii :=
  let n := nat_of_ascii c in
  if ((65 <=? n) && (n <=? 90))%nat then ascii_of_nat (n + 32) else c.

Fixpoint lower (s : string) : string :=
  match s with
  | EmptyString => EmptyString
  | String c t => String (toLower c) (lower t)
  end.

(** Equality up to letter case. *)
Definition sameUpToCase (a b : string) : bool := lower a =? lower b.

(** A [mode: "insensitive"] string filter is evaluated by the database with
    [ILIKE], and the value of the filter is handed over as the pattern, as it
    is.  In a pattern [%] stands for any run of characters, [_] for any one
    character, and a backslash makes the character after it stand for
    itself.  Strings are UTF-8: a character may take several bytes, a lead
    byte and the continuation bytes after it. *)
Definition isContinuation (c : ascii) : bool :=
  let n := nat_of_ascii c in ((128 <=? n) && (n <=? 191))%nat.

Fixpoint skipContinuation (text : string) : string :=
  match text with
  | EmptyString => EmptyString
  | String c t => if isContinuation c then skipContinuation t else text
  end.

(** [text LIKE pattern].  The database refuses a pattern that ends in a lone
    backslash when the match gets that far; here such a pattern matches
    nothing. *)
Fixpoint like (pattern : string) : string -> bool :=
  match pattern with
  | EmptyString =>
      fun text => match text with EmptyString => true | String _ _ => false end
  | String p rest =>
      if Ascii.eqb p "%" then
        fix anywhere (text : string) : bool :=
          like rest text
          || match text with
             | EmptyString => false
             | String _ t => anywhere t
             end
      else if Ascii.eqb p "_" then
        fun text =>
          match text with
          | EmptyString => false
          | String _ t => like rest (skipContinuation t)
          end
      else if Ascii.eqb p "\" then
        match rest with
        | EmptyString => fun _ => false
        | String q rest' =>
            fun text =>
              match text with
              | EmptyString => false
              | String c t => Ascii.eqb c q && like rest' t
              end
        end
      else
        fun text =>
          match text with
          | EmptyString => false
          | String c t => Ascii.eqb c p && like rest t
          end
  end.

(** [text ILIKE pattern]: both sides are case folded first.  Letters outside
    [A-Z] are folded by the database as its locale says; the model leaves them
    as they are. *)
Definition ilike (text pattern : string) : bool :=
  like (lower pattern) (lower text).

(** [{ equals: b, mode: "insensitive" }] applied to a column value [a]. *)
Definition equalsInsensitive (a b : string) : bool := ilike a b.

(** [{ contains: q, mode: "insensitive" }] applied to a column value [a]: the
    pattern is [q] between two [%]. *)
Definition containsInsensitive (a q : string) : bool :=
  ilike a (String "%" (String.append q "%")).

(** A string that, taken as a pattern, stands for itself: ASCII, with none of
    [%], [_] and the backslash. *)
Definition plainChar (c : ascii) : bool :=
  (nat_of_ascii c <? 128)%nat
  && negb (Ascii.eqb c "%") && negb (Ascii.eqb c "_") && negb (Ascii.eqb c "\").

Fixpoint plain (s : string) : bool :=
  match s with
  | EmptyString => true
  | String c t => plainChar c && plain t
  end.

(** [String(x)] on an optional string: [undefined] prints as ["undefined"]. *)
Definition String_ (x : option string) : string :=
  match x with
  | Some s => s
  | None => "undefined"
  end.

(* ------------------------------------------------------------------------- *)
(** ** Exceptions *)

Inductive Exception : Type :=
| NotFound (message : string)
| BadRequest (message : string)
| Forbidden (message : string)
| Unauthorized (message : string)
| ExtendedBadRequest (field message : string)
    (* [new ExtendedBadRequest({ field: message })] *)
| ValidationError (message : string)
    (* whatever [validateSchema] throws on a body it rejects *)
| TypeError (message : string)
    (* a property read on [null] *)
| PrismaError (message : string).
    (* a write the database refuses: [update]/[delete] addressed to a row that
       does not exist, a reference to a row that does not exist *)

(* ------------------------------------------------------------------------- *)
(** ** The monad of controller code *)

Inductive Outcome (S A : Type) : Type :=
| Returned (a : A) (s : S)
| Thrown (e : Exception) (s : S)
| Pending.

Arguments Returned {S A} a s.
Arguments Thrown {S A} e s.
Arguments Pending {S A}.

Definition M (S A : Type) : Type := S -> Outcome S A.

Definition ret {S A} (a : A) : M S A := fun s => Returned a s.

Definition bind {S A B} (c : M S A) (k : A -> M S B) : M S B :=
  fun s =>
    match c s with
    | Returned a s' => k a s'
    | Thrown e s' => Thrown e s'
    | Pending => Pending
    end.

Definition throw {S A} (e : Exception) : M S A := fun s => Thrown e s.

Definition pending {S A} : M S A := fun _ => Pending.

Definition gets {S A} (f : S -> A) : M S A := fun s => Returned (f s) s.

Definition modify {S} (f : S -> S) : M S unit := fun s => Returned tt (f s).

(** The state a settled call leaves behind. *)
Definition finalState {S A} (o : Outcome S A) : option S :=
  match o with
  | Returned _ s => Some s
  | Thrown _ s => Some s
  | Pending => None
  end.

Declare Scope monad_scope.
Delimit Scope monad_scope with monad.
Notation "x <- c ;; k" := (bind c (fun x => k))
  (at level 61, c at next level, right associativity) : monad_scope.
Notation "c ;;; k" := (bind c (fun _ => k))
  (at level 61, right associativity) : monad_scope.
Local Open Scope monad_scope.

(** Lifting the result of a helper that may throw. *)
Definition liftE {S A} (r : Exception + A) : M S A :=
  match r with
  | inl e => throw e
  | inr a => ret a
  end.

(* ------------------------------------------------------------------------- *)
(** ** Records of the data model

    Only the columns the controllers read or write are kept.  A nullable
    column is an [option]. *)

Module User.
Record t : Type := mk {
  id : string;
  rank : string;
  permissions : list string;
  isLeo : bool;
  isDispatch : bool;
  isEmsFd : bool
}.
End User.

Module Citizen.
Record t : Type := mk {
  id : string;
  userId : option string;
  name : string;
  surname : string
}.
End Citizen.

Module Value.
Record t : Type := mk {
  id : string;
  type : string;
  value : string;
  isDefault : bool
}.
End Value.

Module WeaponValue.
Record t : Type := mk {
  id : string;
  valueId : string
}.
End WeaponValue.

Module Weapon.
Record t : Type := mk {
  id : string;
  citizenId : string;
  userId : option string;
  modelId : string;
  registrationStatusId : string;
  serialNumber : string;
  createdAt : Z
}.
End Weapon.

Inductive WhitelistStatus : Type := ACCEPTED | PENDING | DECLINED.

Definition WhitelistStatus_eqb (a b : WhitelistStatus) : bool :=
  match a, b with
  | ACCEPTED, ACCEPTED | PENDING, PENDING | DECLINED, DECLINED => true
  | _, _ => false
  end.

Module NameChangeRequest.
Record t : Type := mk {
  id : string;
  citizenId : string;
  userId : option string;
  newName : string;
  newSurname : string;
  status : WhitelistStatus
}.
End NameChangeRequest.

(** Bodies after [validateSchema]. *)
Module WeaponData.
Record t : Type := mk {
  citizenId : string;
  model : string;
  registrationStatus : string;
  serialNumber : option string
}.
End WeaponData.

Module NameChangeData.
Record t : Type := mk {
  citizenId : string;
  newName : string;
  newSurname : string
}.
End NameChangeData.

Inductive Feature : Type := CUSTOM_TEXTFIELD_VALUES.

(* ------------------------------------------------------------------------- *)
(** ** The database behind [prisma] *)

Record DB : Type := mkDB {
  citizens : list Citizen.t;
  weapons : list Weapon.t;
  weaponValues : list WeaponValue.t;
  values : list Value.t;
  nameChangeRequests : list NameChangeRequest.t
}.

(** What a request handler can read and change: the database, the number of
    strings [generateString] has handed out so far, and the clock that stamps
    [createdAt]. *)
Record World : Type := mkWorld {
  prisma : DB;
  seed : nat;
  now : Z
}.

Definition setWeapons (ws : list Weapon.t) (w : World) : World :=
  let d := prisma w in
  mkWorld (mkDB (citizens d) ws (weaponValues d) (values d) (nameChangeRequests d))
          (seed w) (now w).

Definition setWeaponValues (wvs : list WeaponValue.t) (vs : list Value.t)
    (w : World) : World :=
  let d := prisma w in
  mkWorld (mkDB (citizens d) (weapons d) wvs vs (nameChangeRequests d))
          (seed w) (now w).

Definition setNameChangeRequests (rs : list NameChangeRequest.t) (w : World) : World :=
  let d := prisma w in
  mkWorld (mkDB (citizens d) (weapons d) (weaponValues d) (values d) rs)
          (seed w) (now w).

Definition nextSeed (w : World) : World :=
  mkWorld (prisma w) (S (seed w)) (now w).

(** Modelled from the spec: the ORM's schema, which assigns the id of a created
    row, is not part of these sources.  Rows are relational records addressed
    by [id], so a created row gets an id no row of the table has yet; the
    model takes the mark ["c"] followed by all ids in use, which is longer
    than each of them. *)
Definition cuid (used : list string) : string :=
  String "c" (fold_right String.append "" used).

(** [findFirst({ where })]: the first row, in table order, that matches. *)
Definition findFirst {R} (table : DB -> list R) (where_ : R -> bool)
  : M World (option R) :=
  gets (fun w => find where_ (table (prisma w))).

(** [findUnique({ where: { id } })] *)
Definition findUnique {R} (table : DB -> list R) (idOf : R -> string) (id : string)
  : M World (option R) :=
  findFirst table (fun r => idOf r =? id).

(** [count({ where })] *)
Definition count {R} (table : DB -> list R) (where_ : R -> bool) : M World nat :=
  gets (fun w => List.length (filter where_ (table (prisma w)))).

(** [orderBy: { createdAt: "desc" }] *)
Fixpoint insertDesc (x : Weapon.t) (l : list Weapon.t) : list Weapon.t :=
  match l with
  | [] => [x]
  | y :: t =>
      if (Weapon.createdAt y <? Weapon.createdAt x)%Z
      then x :: y :: t
      else y :: insertDesc x t
  end.

Definition orderByCreatedAtDesc (l : list Weapon.t) : list Weapon.t :=
  fold_right insertDesc [] l.

(** [weapon.findMany({ where, take, skip, orderBy: { createdAt: "desc" } })].
    Rows of equal [createdAt] come in the order of the table here; the
    database may return them in any order, and in another one for the next
    query. *)
Definition weapon_findMany (where_ : Weapon.t -> bool) (take skip : nat)
  : M World (list Weapon.t) :=
  gets (fun w =>
    firstn take (skipn skip (orderByCreatedAtDesc (filter where_ (weapons (prisma w)))))).

(** [orderBy: { <column>: "desc" }] on any table, the column given by [key]. *)
Fixpoint insertByDesc {R} (key : R -> Z) (x : R) (l : list R) : list R :=
  match l with
  | [] => [x]
  | y :: t =>
      if (key y <? key x)%Z
      then x :: y :: t
      else y :: insertByDesc key x t
  end.

Definition orderByDesc {R} (key : R -> Z) (l : list R) : list R :=
  fold_right (insertByDesc key) [] l.

(** [nameChangeRequest.findMany({ where, orderBy: { createdAt: "desc" } })].
    The record of the model does not carry the [createdAt] column of the
    request table; it is read through [createdAt]. *)
Definition nameChangeRequest_findMany (createdAt : NameChangeRequest.t -> Z)
    (where_ : NameChangeRequest.t -> bool) : M World (list NameChangeRequest.t) :=
  gets (fun w => orderByDesc createdAt (filter where_ (nameChangeRequests (prisma w)))).

(** [weaponValue.create({ data: { value: { create: {...} } } })]: a new
    [Value] row and the [WeaponValue] row that points at it. *)
Definition weaponValue_create (isDefault : bool) (type value : string)
  : M World WeaponValue.t :=
  fun w =>
    let d := prisma w in
    let v := Value.mk (cuid (map Value.id (values d))) type value isDefault in
    let wv := WeaponValue.mk (cuid (map WeaponValue.id (weaponValues d))) (Value.id v) in
    Returned wv (setWeaponValues (weaponValues d ++ [wv]) (values d ++ [v]) w).

(** The relations of a weapon row that a request body can aim anywhere:
    [model] refers to a weapon value by [modelId], [registrationStatus] to a
    value by [registrationStatusId].  The database refuses a row whose
    reference finds nothing. *)
Definition referencesExist (d : DB) (modelId registrationStatusId : string) : bool :=
  existsb (fun wv => WeaponValue.id wv =? modelId) (weaponValues d)
  && existsb (fun v => Value.id v =? registrationStatusId) (values d).

Definition foreignKeyError : Exception :=
  PrismaError "Foreign key constraint failed".

(** [weapon.create({ data })]; [createdAt] is stamped by the database. *)
Definition weapon_create (citizenId registrationStatusId serialNumber : string)
    (userId : option string) (modelId : string) : M World Weapon.t :=
  fun w =>
    let d := prisma w in
    if referencesExist d modelId registrationStatusId
    then
      let x := Weapon.mk (cuid (map Weapon.id (weapons d))) citizenId userId modelId
                 registrationStatusId serialNumber (now w) in
      Returned x (setWeapons (weapons d ++ [x]) w)
    else Thrown foreignKeyError w.

(** The [data] of [weapon.update]: an [undefined] field is left as it is. *)
Definition applyWeaponUpdate (modelId registrationStatusId : string)
    (serialNumber : option string) (x : Weapon.t) : Weapon.t :=
  Weapon.mk (Weapon.id x) (Weapon.citizenId x) (Weapon.userId x) modelId
    registrationStatusId
    (match serialNumber with Some s => s | None => Weapon.serialNumber x end)
    (Weapon.createdAt x).

(** [weapon.update({ where: { id }, data })] *)
Definition weapon_update (id : string) (modelId registrationStatusId : string)
    (serialNumber : option string) : M World Weapon.t :=
  fun w =>
    let ws := weapons (prisma w) in
    match find (fun x => Weapon.id x =? id) ws with
    | None => Thrown (PrismaError "Record to update not found.") w
    | Some x =>
        if referencesExist (prisma w) modelId registrationStatusId
        then
          let upd := applyWeaponUpdate modelId registrationStatusId serialNumber in
          Returned (upd x)
            (setWeapons (map (fun y => if Weapon.id y =? id then upd y else y) ws) w)
        else Thrown foreignKeyError w
    end.

(** [weapon.delete({ where: { id } })] *)
Definition weapon_delete (id : string) : M World Weapon.t :=
  fun w =>
    let ws := weapons (prisma w) in
    match find (fun x => Weapon.id x =? id) ws with
    | None => Thrown (PrismaError "Record to delete does not exist.") w
    | Some x =>
        Returned x (setWeapons (filter (fun y => negb (Weapon.id y =? id)) ws) w)
    end.

(** Modelled from the spec: the schema's default for the [status] column of a
    name-change request is not part of these sources; a request that is
    created without a status is pending ("one pending name-change request per
    citizen"). *)
Definition nameChangeRequest_defaultStatus : WhitelistStatus := PENDING.

(** [nameChangeRequest.create({ data })] *)
Definition nameChangeRequest_create (newName newSurname citizenId : string)
    (userId : string) : M World NameChangeRequest.t :=
  fun w =>
    let rs := nameChangeRequests (prisma w) in
    let r := NameChangeRequest.mk (cuid (map NameChangeRequest.id rs)) citizenId
               (Some userId) newName newSurname nameChangeRequest_defaultStatus in
    Returned r (setNameChangeRequests (rs ++ [r]) w).

(* ------------------------------------------------------------------------- *)
(** ** What the controllers import from outside these sources *)

Class Env : Type := {
  (** the raw request body ([unknown]) and the [cad] record of the context *)
  Body : Type;
  Cad : Type;
  (** [validateSchema(schema, body)] returns the parsed data or throws *)
  Schema : Type -> Type;
  WEAPON_SCHEMA : Schema WeaponData.t;
  NAME_CHANGE_REQUEST_SCHEMA : Schema NameChangeData.t;
  validateSchema : forall T : Type, Schema T -> Body -> Exception + T;
  (** [shouldCheckCitizenUserId({ cad, user })] *)
  shouldCheckCitizenUserId : Cad -> User.t -> bool;
  (** [canManageInvariant(userId, user, error)] returns or throws *)
  canManageInvariant : option string -> User.t -> Exception -> Exception + unit;
  (** [isFeatureEnabled({ features: cad.features, feature, defaultReturn })] *)
  isFeatureEnabled : Cad -> Feature -> bool -> bool;
  (** [generateString(length)]; the second argument counts the earlier draws
      of the random source *)
  generateString : nat -> nat -> string
}.

Arguments validateSchema {Env T} _ _.

Definition option_eqb (a : option string) (b : string) : bool :=
  match a with
  | Some a => a =? b
  | None => false
  end.

(* ------------------------------------------------------------------------- *)
(** ** WeaponController *)

Module WeaponController.
Section WithEnv.
Context {E : Env}.

Definition MAX_ITEMS_PER_TABLE_PAGE : nat := 12.
Definition SERIAL_NUMBER_LENGTH : nat := 10.

Record GetCitizenWeaponsData : Type := mkData {
  totalCount : nat;
  weapons_ : list Weapon.t
}.

(** [{ model: { value: { value: { contains: query, mode: "insensitive" } } } }] *)
Definition modelContains (d : DB) (query : string) (x : Weapon.t) : bool :=
  match find (fun wv => WeaponValue.id wv =? Weapon.modelId x) (weaponValues d) with
  | Some wv =>
      match find (fun v => Value.id v =? WeaponValue.valueId wv) (values d) with
      | Some v => containsInsensitive (Value.value v) query
      | None => false
      end
  | None => false
  end.

(** [{ registrationStatus: { value: { contains: query, mode: "insensitive" } } }] *)
Definition registrationStatusContains (d : DB) (query : string) (x : Weapon.t) : bool :=
  match find (fun v => Value.id v =? Weapon.registrationStatusId x) (values d) with
  | Some v => containsInsensitive (Value.value v) query
  | None => false
  end.

(** The [where] of [getCitizenWeapons]. *)
Definition citizenWeaponsWhere (d : DB) (citizenId : string) (query : option string)
    (x : Weapon.t) : bool :=
  (Weapon.citizenId x =? citizenId) &&
  match query with
  | Some q =>
      if truthy query then
        modelContains d q x
        || registrationStatusContains d q x
        || containsInsensitive (Weapon.serialNumber x) q
      else true
  | None => true
  end.

Definition getCitizenWeapons (citizenId : string) (user : User.t) (cad : Cad)
    (skip : nat) (query : option string) : M World GetCitizenWeaponsData :=
  let checkCitizenUserId := shouldCheckCitizenUserId cad user in
  citizen <- findFirst citizens (fun c =>
               (Citizen.id c =? citizenId) &&
               (if checkCitizenUserId
                then option_eqb (Citizen.userId c) (User.id user)
                else true)) ;;
  match citizen with
  | None => throw (NotFound "citizenNotFound")
  | Some _ =>
      d <- gets prisma ;;
      let where_ := citizenWeaponsWhere d citizenId query in
      totalCount <- count weapons where_ ;;
      weapons <- weapon_findMany where_ MAX_ITEMS_PER_TABLE_PAGE skip ;;
      ret (mkData totalCount weapons)
  end.

(** The [where] of the allocator's query: the insensitive [equals] filter,
    to which the serial number is the pattern, and [NOT: { id: weapon.id }]
    when a weapon is given. *)
Definition serialNumberWhere (serialNumber : string) (weapon : option string)
    (x : Weapon.t) : bool :=
  equalsInsensitive (Weapon.serialNumber x) serialNumber &&
  match weapon with
  | Some id => negb (Weapon.id x =? id)
  | None => true
  end.

(** The private allocator.  [fuel] bounds the retries: a call that would
    recurse beyond it is reported as [Pending]. *)
Fixpoint generateOrValidateSerialNumber (fuel : nat) (_serialNumber : option string)
    (weapon : option string) : M World string :=
  serialNumber <-
    match _serialNumber with
    | Some s => ret s
    | None =>
        fun w => Returned (generateString SERIAL_NUMBER_LENGTH (seed w)) (nextSeed w)
    end ;;
  existing <- findFirst weapons (serialNumberWhere serialNumber weapon) ;;
  match existing with
  | None => ret serialNumber
  | Some _ =>
      if truthy _serialNumber
      then throw (ExtendedBadRequest "serialNumber" "serialNumberInUse")
      else
        match fuel with
        | O => pending
        | S fuel' => generateOrValidateSerialNumber fuel' _serialNumber weapon
        end
  end.

(** [x?.userId] *)
Definition citizenUserId (c : option Citizen.t) : option string :=
  match c with
  | Some c => Citizen.userId c
  | None => None
  end.

Definition weaponUserId (x : option Weapon.t) : option string :=
  match x with
  | Some x => Weapon.userId x
  | None => None
  end.

(** [x.id] on a value that may be [null] at run time. *)
Definition citizenIdOf (c : option Citizen.t) : M World string :=
  match c with
  | Some c => ret (Citizen.id c)
  | None => throw (TypeError "Cannot read properties of null (reading 'id')")
  end.

Definition weaponIdOf (x : option Weapon.t) : M World string :=
  match x with
  | Some x => ret (Weapon.id x)
  | None => throw (TypeError "Cannot read properties of null (reading 'id')")
  end.

Definition registerWeapon (fuel : nat) (user : User.t) (cad : Cad) (body : Body)
  : M World Weapon.t :=
  data <- liftE (validateSchema WEAPON_SCHEMA body) ;;
  citizen <- findUnique citizens Citizen.id (WeaponData.citizenId data) ;;
  let checkCitizenUserId := shouldCheckCitizenUserId cad user in
  (if checkCitizenUserId
   then liftE (canManageInvariant (citizenUserId citizen) user (NotFound "notFound"))
   else match citizen with
        | None => throw (NotFound "NotFound")
        | Some _ => ret tt
        end) ;;;
  let isCustomEnabled := isFeatureEnabled cad CUSTOM_TEXTFIELD_VALUES false in
  modelId <-
    (if isCustomEnabled
     then newModel <- weaponValue_create false "WEAPON" (WeaponData.model data) ;;
          ret (WeaponValue.id newModel)
     else ret (WeaponData.model data)) ;;
  weaponModel <- findUnique weaponValues WeaponValue.id modelId ;;
  match weaponModel with
  | None =>
      throw (ExtendedBadRequest "model"
               "Invalid weapon model. Please re-enter the weapon model.")
  | Some _ =>
      citizenId <- citizenIdOf citizen ;;
      serialNumber <- generateOrValidateSerialNumber fuel
                        (orNull (WeaponData.serialNumber data)) None ;;
      weapon_create citizenId (WeaponData.registrationStatus data) serialNumber
        (orNull (Some (User.id user))) modelId
  end.

(** [{ value: { value: { equals: model, mode: "insensitive" } } }] *)
Definition valueEquals (d : DB) (model : string) (wv : WeaponValue.t) : bool :=
  match find (fun v => Value.id v =? WeaponValue.valueId wv) (values d) with
  | Some v => equalsInsensitive (Value.value v) model
  | None => false
  end.

(** [weaponValue.upsert({ where: { id }, update: {}, create: {...} })] *)
Definition weaponValue_upsert (id : string) (isDefault : bool) (type value : string)
  : M World WeaponValue.t :=
  found <- findUnique weaponValues WeaponValue.id id ;;
  match found with
  | Some wv => ret wv
  | None => weaponValue_create isDefault type value
  end.

Definition updateWeapon (fuel : nat) (user : User.t) (cad : Cad) (weaponId : string)
    (body : Body) : M World Weapon.t :=
  data <- liftE (validateSchema WEAPON_SCHEMA body) ;;
  weapon <- findUnique weapons Weapon.id weaponId ;;
  let checkCitizenUserId := shouldCheckCitizenUserId cad user in
  (if checkCitizenUserId
   then liftE (canManageInvariant (weaponUserId weapon) user (NotFound "notFound"))
   else match weapon with
        | None => throw (NotFound "NotFound")
        | Some _ => ret tt
        end) ;;;
  let isCustomEnabled := isFeatureEnabled cad CUSTOM_TEXTFIELD_VALUES false in
  modelId <-
    (if isCustomEnabled
     then
       d <- gets prisma ;;
       weaponModel <- findFirst weaponValues (valueEquals d (WeaponData.model data)) ;;
       newModel <- weaponValue_upsert (String_ (option_map WeaponValue.id weaponModel))
                     false "WEAPON" (WeaponData.model data) ;;
       ret (WeaponValue.id newModel)
     else ret (WeaponData.model data)) ;;
  id <- weaponIdOf weapon ;;
  serialNumber <-
    (if truthy (WeaponData.serialNumber data)
     then s <- generateOrValidateSerialNumber fuel (WeaponData.serialNumber data)
                 (Some id) ;;
          ret (Some s)
     else ret None) ;;
  weapon_update id modelId (WeaponData.registrationStatus data) serialNumber.

Definition deleteWeapon (user : User.t) (cad : Cad) (weaponId : string) : M World bool :=
  weapon <- findUnique weapons Weapon.id weaponId ;;
  let checkCitizenUserId := shouldCheckCitizenUserId cad user in
  (if checkCitizenUserId
   then liftE (canManageInvariant (weaponUserId weapon) user (NotFound "notFound"))
   else match weapon with
        | None => throw (NotFound "NotFound")
        | Some _ => ret tt
        end) ;;;
  id <- weaponIdOf weapon ;;
  weapon_delete id ;;;
  ret true.

End WithEnv.
End WeaponController.

(* ------------------------------------------------------------------------- *)
(** ** NameChangeRequestController *)

Module NameChangeRequestController.
Section WithEnv.
Context {E : Env}.

(** [`${name} ${surname}`] *)
Definition fullname (name surname : string) : string :=
  name ++ " " ++ surname.

(** The [where] of the query for a pending request. *)
Definition pendingOf (citizenId userId : string) (r : NameChangeRequest.t) : bool :=
  (NameChangeRequest.citizenId r =? citizenId)
  && option_eqb (NameChangeRequest.userId r) userId
  && WhitelistStatus_eqb (NameChangeRequest.status r) PENDING.

(** [getUserRequests]: the requests the user has filed, newest first. *)
Definition getUserRequests (createdAt : NameChangeRequest.t -> Z) (user : User.t)
  : M World (list NameChangeRequest.t) :=
  nameChangeRequest_findMany createdAt
    (fun r => option_eqb (NameChangeRequest.userId r) (User.id user)).

Definition requestNameChange (body : Body) (user : User.t)
  : M World NameChangeRequest.t :=
  data <- liftE (validateSchema NAME_CHANGE_REQUEST_SCHEMA body) ;;
  citizen <- findFirst citizens (fun c =>
               (Citizen.id c =? NameChangeData.citizenId data)
               && option_eqb (Citizen.userId c) (User.id user)) ;;
  match citizen with
  | None => throw (NotFound "citizenNotFound")
  | Some citizen =>
      let prevFullname := fullname (Citizen.name citizen) (Citizen.surname citizen) in
      let newFullname :=
        fullname (NameChangeData.newName data) (NameChangeData.newSurname data) in
      if prevFullname =? newFullname
      then throw (ExtendedBadRequest "citizenId" "nameChangeRequestNotNew")
      else
        existing <- findFirst nameChangeRequests
                      (pendingOf (NameChangeData.citizenId data) (User.id user)) ;;
        match existing with
        | Some _ => throw (ExtendedBadRequest "citizenId" "alreadyPendingNameChange")
        | None =>
            nameChangeRequest_create (NameChangeData.newName data)
              (NameChangeData.newSurname data) (NameChangeData.citizenId data)
              (User.id user)
        end
  end.

End WithEnv.
End NameChangeRequestController.

(* ------------------------------------------------------------------------- *)
(** ** Active-officer resolution *)

Module StatusValue.
Record t : Type := mk {
  id : string;
  shouldDo : string
}.
End StatusValue.

(** An officer row together with its [status] relation. *)
Module Officer.
Record t : Type := mk {
  id : string;
  userId : option string;
  status : option StatusValue.t;
  lastStatusChangeTimestamp : option Z
}.
End Officer.

(** A combined unit together with its [status] and [officers] relations. *)
Module CombinedLeoUnit.
Record t : Type := mk {
  id : string;
  status : option StatusValue.t;
  officers : list Officer.t
}.
End CombinedLeoUnit.

(** A header of the request: one value, or several. *)
Inductive HeaderValue : Type :=
| Single (s : string)
| Multiple (l : list string).

Definition toString (h : HeaderValue) : string :=
  match h with
  | Single s => s
  | Multiple l => String.concat "," l
  end.

Record Req : Type := mkReq {
  headers : list (string * HeaderValue)
}.

(** [req.headers[name]] *)
Definition header (req : Req) (name : string) : option HeaderValue :=
  option_map snd (find (fun p => fst p =? name) (headers req)).

(** What [getActiveOfficer] returns when it returns something. *)
Inductive ActiveUnit : Type :=
| IsCombinedUnit (u : CombinedLeoUnit.t)
| IsOfficer (o : Officer.t).

(** SQL's three truth values; [None] is NULL. *)
Definition tri : Type := option bool.

Definition sql_or (a b : tri) : tri :=
  match a, b with
  | Some true, _ | _, Some true => Some true
  | Some false, Some false => Some false
  | _, _ => None
  end.

Definition sql_not (a : tri) : tri := option_map negb a.

Definition sql_and (a b : tri) : tri := sql_not (sql_or (sql_not a) (sql_not b)).

(** A row is selected when its condition is true, not when it is NULL. *)
Definition selected (a : tri) : bool :=
  match a with
  | Some true => true
  | _ => false
  end.

(** The queries [getActiveOfficer] sends, in the order they are sent. *)
Inductive Query : Type :=
| combinedLeoUnit_findFirst
| cad_findFirst
| officer_findFirst.

Class LeoEnv : Type := {
  (** the [cad] row with its [miscCadSettings], and the values kept in [ctx] *)
  CadRow : Type;
  CtxValue : Type;
  (** [Permissions.Dispatch] and [defaultPermissions.defaultLeoPermissions] *)
  Permissions_Dispatch : string;
  defaultLeoPermissions : list string;
  (** [hasPermission({ userToCheck, permissionsToCheck, fallback })] *)
  hasPermission : User.t -> list string -> (User.t -> bool) -> bool;
  (** [getInactivityFilter(cad, "unitInactivityTimeout", "lastStatusChangeTimestamp")]
      read at a given time: [null], or the cutoff kept in its
      [lastStatusChangeTimestamp] field *)
  getInactivityFilter : option CadRow -> string -> string -> Z -> option Z
}.

Module ActiveOfficer.
Section WithEnv.
Context {L : LeoEnv}.

Record LeoWorld : Type := mkLeoWorld {
  combinedLeoUnits : list CombinedLeoUnit.t;
  officers : list Officer.t;
  cads : list CadRow;
  ctx : list (string * CtxValue);
  queries : list Query;
  clock : Z
}.

Definition logQuery (q : Query) : M LeoWorld unit :=
  modify (fun w =>
    mkLeoWorld (combinedLeoUnits w) (officers w) (cads w) (ctx w)
               (queries w ++ [q]) (clock w)).

(** [ctx.delete(key)] *)
Definition ctx_delete (key : string) : M LeoWorld unit :=
  modify (fun w =>
    mkLeoWorld (combinedLeoUnits w) (officers w) (cads w)
               (filter (fun p => negb (fst p =? key)) (ctx w))
               (queries w) (clock w)).

(** [{ status: { shouldDo: "SET_OFF_DUTY" } }] *)
Definition statusIsOffDuty (s : option StatusValue.t) : tri :=
  match s with
  | Some st => Some (StatusValue.shouldDo st =? "SET_OFF_DUTY")
  | None => Some false
  end.

(** [{ status: { is: null } }] *)
Definition statusIsNull (s : option StatusValue.t) : tri :=
  match s with
  | Some _ => Some false
  | None => Some true
  end.

(** [{ lastStatusChangeTimestamp: { lte: cutoff } }] *)
Definition timestampLte (cutoff : Z) (t : option Z) : tri :=
  match t with
  | Some t => Some (t <=? cutoff)%Z
  | None => None
  end.

(** [{ userId: id }] *)
Definition userIdIs (id : string) (u : option string) : tri :=
  match u with
  | Some u => Some (u =? id)
  | None => None
  end.

(** [{ OR: filters }] *)
Definition sql_OR {R} (filters : list (R -> tri)) (r : R) : tri :=
  fold_right (fun f acc => sql_or (f r) acc) (Some false) filters.

(** The [where] of the combined-unit query. *)
Definition combinedUnitWhere (userId : string) (u : CombinedLeoUnit.t) : bool :=
  selected
    (sql_and (sql_not (statusIsOffDuty (CombinedLeoUnit.status u)))
             (Some (existsb (fun o => selected (userIdIs userId (Officer.userId o)))
                            (CombinedLeoUnit.officers u)))).

(** The [filters] array of the officer query. *)
Definition officerFilters (unitsInactivityFilter : option Z) : list (Officer.t -> tri) :=
  [ (fun o => statusIsOffDuty (Officer.status o));
    (fun o => statusIsNull (Officer.status o)) ]
  ++ match unitsInactivityFilter with
     | Some cutoff =>
         [ fun o => timestampLte cutoff (Officer.lastStatusChangeTimestamp o) ]
     | None => []
     end.

(** The [where] of the officer query. *)
Definition officerWhere (userId : string) (unitsInactivityFilter : option Z)
    (o : Officer.t) : bool :=
  selected
    (sql_and (userIdIs userId (Officer.userId o))
             (sql_not (sql_OR (officerFilters unitsInactivityFilter) o))).

(** [a ?? b] on the two lookups. *)
Definition nullish (combinedUnit : option CombinedLeoUnit.t) (officer : option Officer.t)
  : option ActiveUnit :=
  match combinedUnit with
  | Some u => Some (IsCombinedUnit u)
  | None => option_map IsOfficer officer
  end.

(** [req.headers["is-from-dispatch"]?.toString() === "true"] *)
Definition isFromDispatch (req : Req) : bool :=
  match header req "is-from-dispatch" with
  | Some h => toString h =? "true"
  | None => false
  end.

Definition getActiveOfficer (req : Req) (user : User.t) : M LeoWorld (option ActiveUnit) :=
  isDispatch <-
    (if isFromDispatch req
     then
       let hasDispatchPermissions :=
         hasPermission user [Permissions_Dispatch] User.isDispatch in
       if negb hasDispatchPermissions
       then throw (Unauthorized "Must be dispatch to use this header.")
       else ret true
     else
       let hasLeoPermissions :=
         hasPermission user defaultLeoPermissions User.isLeo in
       if negb hasLeoPermissions
       then throw (Forbidden "Invalid Permissions")
       else ret false) ;;
  if (isDispatch : bool)
  then ret None
  else
    logQuery combinedLeoUnit_findFirst ;;;
    combinedUnit <- gets (fun w =>
                      find (combinedUnitWhere (User.id user)) (combinedLeoUnits w)) ;;
    logQuery cad_findFirst ;;;
    cad <- gets (fun w => hd_error (cads w)) ;;
    time <- gets clock ;;
    let unitsInactivityFilter :=
      getInactivityFilter cad "unitInactivityTimeout" "lastStatusChangeTimestamp" time in
    logQuery officer_findFirst ;;;
    officer <- gets (fun w =>
                 find (officerWhere (User.id user) unitsInactivityFilter) (officers w)) ;;
    let activeOfficerOrCombinedUnit := nullish combinedUnit officer in
    match activeOfficerOrCombinedUnit with
    | None =>
        ctx_delete "activeOfficer" ;;;
        throw (BadRequest "noActiveOfficer")
    | Some _ => ret activeOfficerOrCombinedUnit
    end.

End WithEnv.
End ActiveOfficer.

(* ------------------------------------------------------------------------- *)
(** ** Invariants of the database *)


(** [id] is the primary key of the weapon table: [findUnique], [update] and
    [delete] address a row by it. *)
Definition WeaponIdsUnique (d : DB) : Prop :=
  NoDup (map Weapon.id (weapons d)).


(** A decision procedure for lists without repetition. *)
Fixpoint distinct (l : list string) : bool :=
  match l with
  | [] => true
  | a :: t => negb (existsb (String.eqb a) t) && distinct t
  end.

(** The pending requests a user has filed for a citizen. *)
Definition pendingRequests (d : DB) (citizenId userId : string)
  : list NameChangeRequest.t :=
  filter (NameChangeRequestController.pendingOf citizenId userId)
         (nameChangeRequests d).

(** The pending requests of a citizen, whoever filed them. *)
Definition pendingOfCitizen (citizenId : string) (r : NameChangeRequest.t) : bool :=
  (NameChangeRequest.citizenId r =? citizenId)
  && WhitelistStatus_eqb (NameChangeRequest.status r) PENDING.

(** Each citizen has at most one pending name-change request. *)
Definition OnePendingPerCitizen (d : DB) : Prop :=
  forall citizenId : string,
    List.length (filter (pendingOfCitizen citizenId) (nameChangeRequests d)) <= 1.

(** Each citizen has at most one pending name-change request per requesting
    user. *)
Definition OnePendingPerCitizenAndUser (d : DB) : Prop :=
  forall citizenId userId : string,
    List.length (pendingRequests d citizenId userId) <= 1.

(* ------------------------------------------------------------------------- *)
(** ** Vocabulary of the statements *)

Import WeaponController.
Import NameChangeRequestController.
Import ActiveOfficer.

Section Vocabulary.
Context {E : Env}.

(** The [n]-th string the allocator would try from a given world. *)
Definition draw (w : World) (n : nat) : string :=
  generateString SERIAL_NUMBER_LENGTH (seed w + n).

(** A candidate is taken when the allocator's query finds a row. *)
Definition taken (w : World) (weapon : option string) (s : string) : bool :=
  match find (serialNumberWhere s weapon) (weapons (prisma w)) with
  | Some _ => true
  | None => false
  end.

(** The exceptions of the weapon endpoints. *)
Definition modelError : Exception :=
  ExtendedBadRequest "model" "Invalid weapon model. Please re-enter the weapon model.".
Definition serialNumberError : Exception :=
  ExtendedBadRequest "serialNumber" "serialNumberInUse".
Definition nullRead : Exception :=
  TypeError "Cannot read properties of null (reading 'id')".

(** Why [registerWeapon] throws [e]: the body is rejected, the access check
    fails, the citizen is missing, the model is unknown, the serial number
    asked for is in use, or the registration status refers to no value. *)
Definition registerWeaponThrows (user : User.t) (cad : Cad) (body : Body) (w : World)
    (e : Exception) : Prop :=
  validateSchema WEAPON_SCHEMA body = inl e
  \/ exists data, validateSchema WEAPON_SCHEMA body = inr data /\
     let citizen :=
       find (fun c => Citizen.id c =? WeaponData.citizenId data) (citizens (prisma w)) in
     (shouldCheckCitizenUserId cad user = true
        /\ canManageInvariant (citizenUserId citizen) user (NotFound "notFound") = inl e)
     \/ (shouldCheckCitizenUserId cad user = false /\ citizen = None
        /\ e = NotFound "NotFound")
     \/ (isFeatureEnabled cad CUSTOM_TEXTFIELD_VALUES false = false
        /\ find (fun wv => WeaponValue.id wv =? WeaponData.model data)
             (weaponValues (prisma w)) = None
        /\ e = modelError)
     \/ (citizen = None /\ e = nullRead)
     \/ (exists s, orNull (WeaponData.serialNumber data) = Some s
        /\ taken w None s = true /\ e = serialNumberError)
     \/ (~ In (WeaponData.registrationStatus data) (map Value.id (values (prisma w)))
        /\ (forall s, orNull (WeaponData.serialNumber data) = Some s ->
              taken w None s = false)
        /\ e = foreignKeyError).

(** Why [updateWeapon] throws [e]; a reference that finds nothing is noticed
    last, by the update itself. *)
Definition updateWeaponThrows (user : User.t) (cad : Cad) (weaponId : string)
    (body : Body) (w : World) (e : Exception) : Prop :=
  validateSchema WEAPON_SCHEMA body = inl e
  \/ exists data, validateSchema WEAPON_SCHEMA body = inr data /\
     let weapon := find (fun x => Weapon.id x =? weaponId) (weapons (prisma w)) in
     let allocated :=
       forall s, WeaponData.serialNumber data = Some s -> truthy (Some s) = true ->
         taken w (Some weaponId) s = false in
     (shouldCheckCitizenUserId cad user = true
        /\ canManageInvariant (weaponUserId weapon) user (NotFound "notFound") = inl e)
     \/ (shouldCheckCitizenUserId cad user = false /\ weapon = None
        /\ e = NotFound "NotFound")
     \/ (weapon = None /\ e = nullRead)
     \/ (exists s, WeaponData.serialNumber data = Some s /\ truthy (Some s) = true
        /\ taken w (Some weaponId) s = true /\ e = serialNumberError)
     \/ (isFeatureEnabled cad CUSTOM_TEXTFIELD_VALUES false = false
        /\ ~ In (WeaponData.model data) (map WeaponValue.id (weaponValues (prisma w)))
        /\ allocated /\ e = foreignKeyError)
     \/ (~ In (WeaponData.registrationStatus data) (map Value.id (values (prisma w)))
        /\ allocated /\ e = foreignKeyError).

(** The citizen [requestNameChange] works on: the one with the given id among
    the citizens of the requesting user. *)
Definition citizenOf (w : World) (citizenId : string) (user : User.t)
  : option Citizen.t :=
  find (fun c => (Citizen.id c =? citizenId)
                 && option_eqb (Citizen.userId c) (User.id user))
       (citizens (prisma w)).

(** The request [requestNameChange] files. *)
Definition filedRequest (w : World) (data : NameChangeData.t) (user : User.t)
  : NameChangeRequest.t :=
  NameChangeRequest.mk
    (cuid (map NameChangeRequest.id (nameChangeRequests (prisma w))))
    (NameChangeData.citizenId data) (Some (User.id user))
    (NameChangeData.newName data) (NameChangeData.newSurname data)
    nameChangeRequest_defaultStatus.

(** The page [getCitizenWeapons] shows at a given [skip]; empty when the call
    throws. *)
Definition pageAt (citizenId : string) (user : User.t) (cad : Cad)
    (query : option string) (w : World) (skip : nat) : list Weapon.t :=
  match getCitizenWeapons citizenId user cad skip query w with
  | Returned r _ => weapons_ r
  | _ => []
  end.

(** The access check of the weapon endpoints lets the user through. *)
Definition accessGranted (user : User.t) (cad : Cad) (owner : option string) : Prop :=
  shouldCheckCitizenUserId cad user = true ->
  canManageInvariant owner user (NotFound "notFound") = inr tt.

End Vocabulary.

(** Newest first. *)
Definition descending {R} (key : R -> Z) (l : list R) : Prop :=
  StronglySorted (fun a b => (key b <= key a)%Z) l.

Section LeoVocabulary.
Context {L : LeoEnv}.

(** The cutoff of the inactivity filter, when the CAD's settings yield one. *)
Definition unitsInactivityFilter (w : LeoWorld) : option Z :=
  getInactivityFilter (hd_error (cads w)) "unitInactivityTimeout"
    "lastStatusChangeTimestamp" (clock w).

(** The world after the three lookups: only the log of queries has grown. *)
Definition afterLookups (w : LeoWorld) : LeoWorld :=
  mkLeoWorld (combinedLeoUnits w) (officers w) (cads w) (ctx w)
    (((queries w ++ [combinedLeoUnit_findFirst]) ++ [cad_findFirst])
       ++ [officer_findFirst])
    (clock w).

(** The world after [ctx.delete("activeOfficer")]. *)
Definition withoutActiveOfficer (w : LeoWorld) : LeoWorld :=
  mkLeoWorld (combinedLeoUnits w) (officers w) (cads w)
    (filter (fun p => negb (fst p =? "activeOfficer")) (ctx w))
    (queries w) (clock w).

End LeoVocabulary.

(* ------------------------------------------------------------------------- *)
(** ** A concrete environment, to run the model *)

Inductive DemoBody : Type :=
| WeaponBody (d : WeaponData.t)
| NameChangeBody (d : NameChangeData.t)
| Malformed.

(** The context's [cad]: whether citizens are bound to their user, and whether
    custom text-field values are enabled. *)
Record DemoCad : Type := mkDemoCad {
  checkUserId : bool;
  customTextfields : bool
}.

Definition demoWeaponSchema (b : DemoBody) : Exception + WeaponData.t :=
  match b with
  | WeaponBody d => inr d
  | _ => inl (ValidationError "weapon")
  end.

Definition demoNameChangeSchema (b : DemoBody) : Exception + NameChangeData.t :=
  match b with
  | NameChangeBody d => inr d
  | _ => inl (ValidationError "nameChange")
  end.

Definition demoCanManage (userId : option string) (user : User.t) (error : Exception)
  : Exception + unit :=
  if (User.rank user =? "OWNER") || option_eqb userId (User.id user)
  then inr tt
  else inl error.

(** The [n]-th draw is the [n]-th capital letter, repeated. *)
Definition demoGenerateString (len n : nat) : string :=
  string_of_list_ascii (repeat (ascii_of_nat (65 + n mod 26)) len).

#[local] Instance demoEnv : Env := {|
  Body := DemoBody;
  Cad := DemoCad;
  Schema := fun T => DemoBody -> Exception + T;
  WEAPON_SCHEMA := demoWeaponSchema;
  NAME_CHANGE_REQUEST_SCHEMA := demoNameChangeSchema;
  validateSchema := fun T schema body => schema body;
  shouldCheckCitizenUserId := fun cad _ => checkUserId cad;
  canManageInvariant := demoCanManage;
  isFeatureEnabled := fun cad _ _ => customTextfields cad;
  generateString := demoGenerateString
|}.

#[local] Instance demoLeoEnv : LeoEnv := {|
  CadRow := option Z;
  CtxValue := string;
  Permissions_Dispatch := "Dispatch";
  defaultLeoPermissions := ["Leo"];
  hasPermission := fun user wanted fallback =>
    existsb (fun p => existsb (String.eqb p) (User.permissions user)) wanted
    || fallback user;
  getInactivityFilter := fun cad _ _ time =>
    match cad with
    | Some (Some minutes) => Some (time - minutes * 60000)%Z
    | _ => None
    end
|}.

Definition alice : User.t := User.mk "u1" "USER" [] false false false.
Definition bob : User.t := User.mk "u2" "USER" ["Leo"] true false false.
Definition dana : User.t := User.mk "u3" "USER" ["Dispatch"] false true false.

Definition demoCad : DemoCad := mkDemoCad true false.

Definition demoDB : DB :=
  mkDB [ Citizen.mk "c1" (Some "u1") "Ann" "Lee";
         Citizen.mk "c2" (Some "u2") "Bo" "Ray" ]
       [ Weapon.mk "w1" "c1" (Some "u1") "m1" "s1" "AAAAAAAAAA" 10;
         Weapon.mk "w2" "c1" (Some "u1") "m1" "s1" "XyZ-1" 20 ]
       [ WeaponValue.mk "m1" "v1" ]
       [ Value.mk "v1" "WEAPON" "Pistol" true;
         Value.mk "s1" "LICENSE" "Valid" true ]
       [].

Definition demoWorld : World := mkWorld demoDB 0 100.


(** The same database with one pending name-change request for citizen
    ["c1"], filed by a given user. *)
Definition demoWorldPending (userId : string) : World :=
  setNameChangeRequests
    [ NameChangeRequest.mk "n1" "c1" (Some userId) "Anna" "Lee" PENDING ]
    demoWorld.

(** A weapon whose serial number is the empty string. *)
Definition unmarkedWeapon : Weapon.t :=
  Weapon.mk "w0" "c2" (Some "u2") "m1" "s1" "" 5.

(** Thirteen weapons of one citizen. *)
Definition crowdedWorld : World :=
  setWeapons (repeat (Weapon.mk "w" "c1" (Some "u1") "m1" "s1" "S" 1) 13) demoWorld.

(** Fourteen weapons of citizen ["c1"], registered one after the other, and
    a weapon of citizen ["c2"]. *)
Definition numbered (k : nat) : Weapon.t :=
  Weapon.mk (String (ascii_of_nat (97 + k)) "") "c1" (Some "u1") "m1" "s1"
    (String (ascii_of_nat (65 + k)) "-7") (Z.of_nat k).

Definition busyWorld : World :=
  setWeapons
    (map numbered (seq 0 14) ++ [Weapon.mk "z9" "c2" (Some "u2") "m1" "s1" "Z-9" 99])
    demoWorld.

(** The demo database with a second model and a second registration
    status. *)
Definition stockedWorld : World :=
  setWeaponValues
    [ WeaponValue.mk "m1" "v1"; WeaponValue.mk "m2" "v2" ]
    [ Value.mk "v1" "WEAPON" "Pistol" true;
      Value.mk "s1" "LICENSE" "Valid" true;
      Value.mk "v2" "WEAPON" "Rifle" true;
      Value.mk "s2" "LICENSE" "Expired" true ]
    demoWorld.


Definition eve : User.t := User.mk "u4" "USER" [] false false false.
Definition finn : User.t := User.mk "u5" "USER" ["Leo"] false false false.

Definition onDuty : StatusValue.t := StatusValue.mk "st1" "SET_ON_DUTY".
Definition offDuty : StatusValue.t := StatusValue.mk "st2" "SET_OFF_DUTY".

Definition officerBob : Officer.t := Officer.mk "o1" (Some "u2") (Some onDuty) (Some 1000%Z).
Definition officerEve : Officer.t := Officer.mk "o2" (Some "u4") (Some onDuty) (Some 1000%Z).
Definition officerFinn : Officer.t := Officer.mk "o3" (Some "u5") (Some onDuty) (Some 1000%Z).

Definition demoUnit : CombinedLeoUnit.t :=
  CombinedLeoUnit.mk "cu1" (Some onDuty) [officerBob; officerEve].

Definition demoLeoWorld : LeoWorld :=
  mkLeoWorld [demoUnit] [officerBob; officerEve; officerFinn] [Some 5%Z]
    [("activeOfficer", "o1")] [] 100000%Z.

(** A request with the dispatch header, and one without. *)
Definition fromDispatch : Req := mkReq [("is-from-dispatch", Single "true")].
Definition plainRequest : Req := mkReq [("accept", Single "application/json")].

(* ------------------------------------------------------------------------- *)
(** * Properties *)

(** ** Lists and strings *)

Lemma sameUpToCase_spec (a b : string) :
  sameUpToCase a b = true <-> lower a = lower b.
Proof. unfold sameUpToCase. apply String.eqb_eq. Qed.

(** A pattern without [%], [_] and backslash matches itself only. *)
Lemma like_literal (p : string) :
  (forall c, In c (list_ascii_of_string p) ->
     Ascii.eqb c "%" = false /\ Ascii.eqb c "_" = false /\ Ascii.eqb c "\" = false) ->
  forall text, like p text = (text =? p).
Proof.
  induction p as [|c p IH]; intros Hp text.
  - destruct text; reflexivity.
  - cbn [like]. destruct (Hp c (or_introl eq_refl)) as (-> & -> & ->).
    destruct text as [|d text]; [reflexivity|].
    cbn [String.eqb]. rewrite IH by (intros c' Hc'; apply Hp; now right).
    reflexivity.
Qed.

Lemma toLower_plain (c : ascii) :
  plainChar c = true ->
  Ascii.eqb (toLower c) "%" = false /\ Ascii.eqb (toLower c) "_" = false
  /\ Ascii.eqb (toLower c) "\" = false.
Proof.
  destruct c as [[] [] [] [] [] [] [] []]; vm_compute; intros H;
    first [discriminate H | repeat split].
Qed.

(** For a plain value, the insensitive [equals] filter is equality up to
    case. *)
Lemma equalsInsensitive_plain (a p : string) :
  plain p = true -> equalsInsensitive a p = sameUpToCase a p.
Proof.
  intros Hp. unfold equalsInsensitive, ilike, sameUpToCase. apply like_literal.
  induction p as [|c p IH]; cbn [lower list_ascii_of_string]; [intros c []|].
  cbn [plain] in Hp. apply andb_true_iff in Hp as [Hc Hp].
  intros c' [<-|Hc']; [now apply toLower_plain | now apply IH].
Qed.

Lemma length_append (a b : string) :
  String.length (a ++ b) = String.length a + String.length b.
Proof. induction a as [|c a IH]; simpl; [reflexivity|]. now rewrite IH. Qed.

Lemma cuid_length (used : list string) (s : string) :
  In s used -> String.length s < String.length (cuid used).
Proof.
  unfold cuid. simpl.
  induction used as [|a l IH]; simpl; [tauto|].
  rewrite length_append. intros [->|H]; [lia|].
  specialize (IH H). lia.
Qed.

Lemma cuid_fresh (used : list string) : ~ In (cuid used) used.
Proof. intros H. apply cuid_length in H. lia. Qed.

(** A query finds nothing exactly when no row matches. *)
Lemma find_none_iff {R} (where_ : R -> bool) (rows : list R) :
  find where_ rows = None <-> (forall r, In r rows -> where_ r = false).
Proof.
  split; [apply find_none|].
  induction rows as [|r rest IH]; simpl; intros Hnone; [reflexivity|].
  rewrite (Hnone r (or_introl eq_refl)). apply IH.
  intros r' Hr'. apply Hnone. now right.
Qed.

Lemma find_some_exists {A} (f : A -> bool) (l : list A) (x : A) :
  In x l -> f x = true -> exists y, find f l = Some y.
Proof.
  intros Hin Hf. destruct (find f l) as [y|] eqn:Hfind; [now exists y|].
  rewrite (find_none f l Hfind x Hin) in Hf. discriminate.
Qed.

Lemma find_existsb {R} (where_ : R -> bool) (rows : list R) (r : R) :
  find where_ rows = Some r -> existsb where_ rows = true.
Proof.
  intros Hr. apply find_some in Hr as [Hin Hr]. apply existsb_exists. eauto.
Qed.

(** A key is referred to in vain exactly when no row carries it. *)
Lemma existsb_key {R} (key : R -> string) (k : string) (rows : list R) :
  existsb (fun r => key r =? k) rows = true <-> In k (map key rows).
Proof.
  rewrite existsb_exists, in_map_iff. split; intros (r & H1 & H2); exists r.
  - apply String.eqb_eq in H2. auto.
  - split; [assumption|]. now apply String.eqb_eq.
Qed.

Lemma length_insertDesc (x : Weapon.t) (l : list Weapon.t) :
  List.length (insertDesc x l) = S (List.length l).
Proof.
  induction l as [|y t IH]; simpl; [reflexivity|].
  destruct (Weapon.createdAt y <? Weapon.createdAt x)%Z; simpl; congruence.
Qed.

Lemma length_orderByCreatedAtDesc (l : list Weapon.t) :
  List.length (orderByCreatedAtDesc l) = List.length l.
Proof.
  induction l as [|x t IH]; simpl; [reflexivity|].
  rewrite length_insertDesc. congruence.
Qed.

Lemma In_insertDesc (x y : Weapon.t) (l : list Weapon.t) :
  In y (insertDesc x l) <-> y = x \/ In y l.
Proof.
  induction l as [|z t IH]; simpl.
  - intuition.
  - destruct (Weapon.createdAt z <? Weapon.createdAt x)%Z; simpl; intuition.
Qed.

Lemma In_orderByCreatedAtDesc (y : Weapon.t) (l : list Weapon.t) :
  In y (orderByCreatedAtDesc l) <-> In y l.
Proof.
  induction l as [|x t IH]; simpl; [tauto|].
  rewrite In_insertDesc. intuition.
Qed.

Lemma distinct_NoDup (l : list string) : distinct l = true <-> NoDup l.
Proof.
  induction l as [|a t IH]; simpl.
  - split; [constructor | reflexivity].
  - rewrite andb_true_iff, negb_true_iff, IH. split.
    + intros [Hex Hnd]. constructor; [|assumption].
      intros Hin. assert (existsb (String.eqb a) t = true) as Habs.
      { apply existsb_exists. exists a. split; [assumption | apply String.eqb_refl]. }
      congruence.
    + intros Hnd. inversion Hnd as [|? ? Hnin Hnd']; subst. split; [|assumption].
      destruct (existsb (String.eqb a) t) eqn:Hex; [|reflexivity].
      apply existsb_exists in Hex as (b & Hb & Hab).
      apply String.eqb_eq in Hab. subst b. contradiction.
Qed.


(** Dropping rows keeps their keys distinct. *)
Lemma NoDup_map_filter {K R} (key : R -> K) (keep : R -> bool) (rows : list R) :
  NoDup (map key rows) -> NoDup (map key (filter keep rows)).
Proof.
  intros Hkeys. induction rows as [|r rest IH]; simpl; [constructor|].
  inversion Hkeys as [|? ? Hnew Hrest]; subst.
  destruct (keep r); simpl; [|now apply IH].
  constructor; [|now apply IH].
  intros Hin. apply Hnew. apply in_map_iff in Hin as (x & Hx & Hin).
  apply filter_In in Hin as [Hin _]. apply in_map_iff. now exists x.
Qed.

Lemma NoDup_map_snoc {A B} (f : A -> B) (l : list A) (a : A) :
  NoDup (map f l) -> (forall x, In x l -> f x <> f a) -> NoDup (map f (l ++ [a])).
Proof.
  intros Hnd Hfresh. rewrite map_app. simpl.
  apply NoDup_app; [assumption | repeat constructor; intros [] |].
  intros b Hb [Hba|[]]. subst b.
  apply in_map_iff in Hb as (x & Hx & Hin). exact (Hfresh x Hin Hx).
Qed.


Lemma NoDup_map_eq {A B} (f : A -> B) (l : list A) (x y : A) :
  NoDup (map f l) -> In x l -> In y l -> f x = f y -> x = y.
Proof.
  induction l as [|a t IH]; simpl; intros Hnd Hx Hy Heq; [destruct Hx|].
  inversion Hnd as [|? ? Hnin Hnd']; subst.
  destruct Hx as [->|Hx], Hy as [->|Hy]; auto.
  - exfalso. apply Hnin. rewrite Heq. now apply in_map.
  - exfalso. apply Hnin. rewrite <- Heq. now apply in_map.
Qed.

(* ------------------------------------------------------------------------- *)
(** ** The serial-number allocator *)

(** Unfolding the monad and the queries, and splitting on the innermost
    undecided test. *)
Ltac unfold_monad :=
  cbv beta iota zeta delta
    [bind ret throw pending gets modify liftE findUnique findFirst count
     weapon_findMany weaponIdOf citizenIdOf weaponValue_upsert weaponValue_create
     weapon_update weapon_delete weapon_create nameChangeRequest_create].

Ltac is_undecided_test scrutinee :=
  lazymatch scrutinee with
  | context [match _ with _ => _ end] => fail
  | _ => idtac
  end.

Ltac destruct_innermost :=
  match goal with
  | |- context [match ?scrutinee with _ => _ end] =>
      is_undecided_test scrutinee; destruct scrutinee eqn:?
  end.

Ltac split_cases := repeat (destruct_innermost; cbv beta iota).

Section AllocatorFacts.
Context {E : Env}.

Lemma taken_false (w : World) (weapon : option string) (s : string) :
  taken w weapon s = false <->
  forall x, In x (weapons (prisma w)) ->
    equalsInsensitive (Weapon.serialNumber x) s = true ->
    weapon = Some (Weapon.id x).
Proof.
  unfold taken.
  destruct (find (serialNumberWhere s weapon) (weapons (prisma w))) as [y|] eqn:Hf.
  - split; [discriminate|]. intros H. exfalso.
    apply find_some in Hf as [Hin Hy]. unfold serialNumberWhere in Hy.
    apply andb_true_iff in Hy as [Heq Hid].
    rewrite (H y Hin Heq) in Hid. rewrite String.eqb_refl in Hid. discriminate.
  - split; [|reflexivity]. intros _ x Hin Heq.
    pose proof (find_none _ _ Hf x Hin) as Hx. unfold serialNumberWhere in Hx.
    rewrite Heq in Hx. simpl in Hx. destruct weapon as [id|]; [|discriminate].
    apply negb_false_iff, String.eqb_eq in Hx. now subst.
Qed.

(** One round of the allocator, with the monad unfolded. *)
Lemma generateOrValidateSerialNumber_eq (fuel : nat) (sn weapon : option string)
    (w : World) :
  generateOrValidateSerialNumber fuel sn weapon w =
  let serialNumber :=
    match sn with Some s => s | None => generateString SERIAL_NUMBER_LENGTH (seed w) end in
  let w1 := match sn with Some _ => w | None => nextSeed w end in
  if taken w weapon serialNumber
  then
    if truthy sn
    then Thrown (ExtendedBadRequest "serialNumber" "serialNumberInUse") w1
    else
      match fuel with
      | O => Pending
      | S fuel' => generateOrValidateSerialNumber fuel' sn weapon w1
      end
  else Returned serialNumber w1.
Proof.
  unfold taken.
  destruct fuel, sn as [s|]; cbn [generateOrValidateSerialNumber];
    unfold bind, ret, findFirst, gets; cbn [prisma nextSeed];
    destruct (find _ (weapons (prisma w))); try reflexivity;
    destruct (truthy (Some s)); reflexivity.
Qed.

(** With an explicit, non-empty serial number there is one query and no
    retry. *)
Lemma generateOrValidateSerialNumber_explicit (fuel : nat) (s : string)
    (weapon : option string) (w : World) :
  truthy (Some s) = true ->
  generateOrValidateSerialNumber fuel (Some s) weapon w =
  if taken w weapon s
  then Thrown (ExtendedBadRequest "serialNumber" "serialNumberInUse") w
  else Returned s w.
Proof.
  intros Ht. rewrite generateOrValidateSerialNumber_eq. cbv zeta. rewrite Ht.
  reflexivity.
Qed.

(** Without a serial number the allocator walks through the draws: it returns
    the first one that is not taken, having consumed the draws up to it, and
    it is pending only if every draw within the budget is taken. *)
Lemma generateOrValidateSerialNumber_generated (fuel : nat) (weapon : option string)
    (w : World) :
  match generateOrValidateSerialNumber fuel None weapon w with
  | Returned r w' =>
      exists k, k <= fuel /\ r = draw w k
        /\ w' = mkWorld (prisma w) (seed w + k + 1) (now w)
        /\ (forall j, j < k -> taken w weapon (draw w j) = true)
        /\ taken w weapon r = false
  | Thrown _ _ => False
  | Pending => forall j, j <= fuel -> taken w weapon (draw w j) = true
  end.
Proof.
  revert w. induction fuel as [|fuel IH]; intros w;
    rewrite generateOrValidateSerialNumber_eq; cbv zeta; cbn [truthy];
    fold (draw w 0); replace (generateString SERIAL_NUMBER_LENGTH (seed w))
      with (draw w 0) by (unfold draw; now rewrite Nat.add_0_r);
    destruct (taken w weapon (draw w 0)) eqn:H0.
  - intros j Hj. now replace j with 0 by lia.
  - exists 0. repeat split; try lia; try assumption.
    unfold nextSeed. f_equal. lia.
  - specialize (IH (nextSeed w)).
    assert (forall s, taken (nextSeed w) weapon s = taken w weapon s) as Htk
      by reflexivity.
    assert (forall n, draw (nextSeed w) n = draw w (S n)) as Hdr.
    { intros n. unfold draw, nextSeed. simpl. f_equal. lia. }
    destruct (generateOrValidateSerialNumber fuel None weapon (nextSeed w))
      as [r w'|e w'|].
    + destruct IH as (k & Hk & Hr & Hw & Hbefore & Hfree).
      exists (S k). rewrite Hdr in Hr. rewrite Htk in Hfree.
      repeat split; try lia; try assumption.
      * rewrite Hw. unfold nextSeed. simpl. f_equal. lia.
      * intros j Hj. destruct j as [|j]; [assumption|].
        rewrite <- Hdr, <- Htk. apply Hbefore. lia.
    + assumption.
    + intros j Hj. destruct j as [|j]; [assumption|].
      rewrite <- Hdr, <- Htk. apply IH. lia.
  - exists 0. repeat split; try lia; try assumption.
    unfold nextSeed. f_equal. lia.
Qed.

(** Whatever it is given, a settled call has not touched the database, and a
    returned serial number is not taken. *)
Lemma generateOrValidateSerialNumber_settled (fuel : nat) (sn weapon : option string)
    (w : World) :
  match generateOrValidateSerialNumber fuel sn weapon w with
  | Returned r w' =>
      prisma w' = prisma w /\ now w' = now w /\ taken w weapon r = false
      /\ (forall s, sn = Some s -> r = s /\ w' = w)
  | Thrown e w' =>
      w' = w /\ e = ExtendedBadRequest "serialNumber" "serialNumberInUse"
      /\ exists s, sn = Some s /\ truthy sn = true /\ taken w weapon s = true
  | Pending => truthy sn = false
  end.
Proof.
  destruct sn as [s|].
  - induction fuel as [|fuel IH];
      rewrite generateOrValidateSerialNumber_eq; cbv zeta;
      destruct (taken w weapon s) eqn:Htk;
      try (repeat split; auto; congruence);
      destruct (truthy (Some s)) eqn:Htr; auto;
      (split; [reflexivity|]; split; [reflexivity|]; exists s; auto).
  - pose proof (generateOrValidateSerialNumber_generated fuel weapon w) as H.
    destruct (generateOrValidateSerialNumber fuel None weapon w) as [r w'|e w'|];
      [|destruct H|reflexivity].
    destruct H as (k & _ & _ & -> & _ & Hfree). repeat split; auto; discriminate.
Qed.

Lemma taken_None (w : World) (s : string) :
  taken w None s = false <->
  forall x, In x (weapons (prisma w)) ->
    equalsInsensitive (Weapon.serialNumber x) s = false.
Proof.
  rewrite taken_false. split; intros H x Hin.
  - destruct (equalsInsensitive (Weapon.serialNumber x) s) eqn:Heq; [|reflexivity].
    specialize (H x Hin Heq). discriminate.
  - intros Heq. rewrite (H x Hin) in Heq. discriminate.
Qed.

Lemma taken_true (w : World) (weapon : option string) (s : string) :
  taken w weapon s = true <->
  exists x, In x (weapons (prisma w))
    /\ equalsInsensitive (Weapon.serialNumber x) s = true
    /\ weapon <> Some (Weapon.id x).
Proof.
  split.
  - intros Ht. unfold taken in Ht.
    destruct (find (serialNumberWhere s weapon) (weapons (prisma w))) as [x|] eqn:Hf;
      [|discriminate].
    apply find_some in Hf as [Hin Hx]. unfold serialNumberWhere in Hx.
    apply andb_true_iff in Hx as [Heq Hid]. exists x. repeat split; auto.
    intros ->. rewrite String.eqb_refl in Hid. discriminate.
  - intros (x & Hin & Heq & Hid).
    destruct (taken w weapon s) eqn:Ht; [reflexivity|].
    exfalso. apply Hid. exact (proj1 (taken_false w weapon s) Ht x Hin Heq).
Qed.

(** The allocator leaves the random source alone when it is given a serial
    number, and moves it forward otherwise. *)
Lemma generateOrValidateSerialNumber_seed (fuel : nat) (sn weapon : option string)
    (w : World) (r : string) (w' : World) :
  generateOrValidateSerialNumber fuel sn weapon w = Returned r w' ->
  match sn with
  | Some s => r = s /\ w' = w
  | None =>
      exists k, k <= fuel /\ r = generateString SERIAL_NUMBER_LENGTH (seed w + k)
                /\ w' = mkWorld (prisma w) (seed w + k + 1) (now w)
  end.
Proof.
  intros Heq. destruct sn as [s|].
  - pose proof (generateOrValidateSerialNumber_settled fuel (Some s) weapon w) as H.
    rewrite Heq in H. destruct H as (_ & _ & _ & H). now apply H.
  - pose proof (generateOrValidateSerialNumber_generated fuel weapon w) as H.
    rewrite Heq in H. destruct H as (k & Hk & Hr & Hw & _). exists k. auto.
Qed.

End AllocatorFacts.

(* ------------------------------------------------------------------------- *)
(** ** What each weapon endpoint does, case by case *)

Section WeaponEndpoints.
Context {E : Env}.

Ltac use_allocator :=
  match goal with
  | H : generateOrValidateSerialNumber ?f ?sn ?wp ?w = ?o |- _ =>
      let Hs := fresh "Hsettled" in
      pose proof (generateOrValidateSerialNumber_settled f sn wp w) as Hs;
      rewrite H in Hs; cbn beta iota in Hs;
      lazymatch o with
      | Returned _ _ =>
          let Hdb := fresh "Hdb" in
          let Hnow := fresh "Hnow" in
          let Hfree := fresh "Hfree" in
          let Hexp := fresh "Hexp" in
          destruct Hs as (Hdb & Hnow & Hfree & Hexp)
      | Thrown _ _ =>
          let s := fresh "s" in
          let Hsn := fresh "Hsn" in
          let Htruthy := fresh "Htruthy" in
          let Htaken := fresh "Htaken" in
          destruct Hs as (-> & -> & s & Hsn & Htruthy & Htaken)
      | Pending => idtac
      end
  end.

Lemma find_id_eq (wid : string) (ws : list Weapon.t) (x : Weapon.t) :
  find (fun r => Weapon.id r =? wid) ws = Some x -> Weapon.id x = wid.
Proof. intros H. apply find_some in H as [_ H]. now apply String.eqb_eq. Qed.

Lemma find_snoc_not_none {A} (p : A -> bool) (l : list A) (a : A) :
  p a = true -> find p (l ++ [a]) <> None.
Proof.
  intros Ha Hf. pose proof (find_none _ _ Hf a) as H. rewrite Ha in H.
  assert (In a (l ++ [a])) as Hin by (apply in_or_app; right; now left).
  specialize (H Hin). discriminate.
Qed.

Lemma truthy_orNull (x : option string) : truthy (orNull x) = truthy x.
Proof. unfold orNull. destruct (truthy x) eqn:H; [assumption|reflexivity]. Qed.

Lemma registerWeapon_cases fuel user cad body w :
  match registerWeapon fuel user cad body w with
  | Returned r w' =>
      weapons (prisma w') = weapons (prisma w) ++ [r]
      /\ taken w None (Weapon.serialNumber r) = false
      /\ Weapon.id r = cuid (map Weapon.id (weapons (prisma w)))
      /\ exists data, validateSchema WEAPON_SCHEMA body = inr data
           /\ forall s, orNull (WeaponData.serialNumber data) = Some s ->
                        Weapon.serialNumber r = s
  | Thrown e w' =>
      weapons (prisma w') = weapons (prisma w)
      /\ registerWeaponThrows user cad body w e
  | Pending =>
      forall data, validateSchema WEAPON_SCHEMA body = inr data ->
        truthy (WeaponData.serialNumber data) = false
  end.
Proof.
  unfold registerWeapon, registerWeaponThrows. unfold_monad. split_cases;
    try use_allocator.
  all: unfold setWeapons; cbn [prisma weapons]; rewrite ?Hdb;
       cbn [prisma weapons setWeaponValues].
  all: try (split; [reflexivity|]; split; [cbn [Weapon.serialNumber]; exact Hfree|];
            split; [reflexivity|];
            eexists; split; [reflexivity|]; cbn [Weapon.serialNumber];
            intros ? Hs; now apply Hexp).
  all: try (split; [reflexivity|]).
  all: try solve [left; reflexivity].
  all: cbn [prisma weaponValues setWeaponValues] in *.
  all: try solve [exfalso; eapply find_snoc_not_none; [|eassumption];
                  apply String.eqb_refl].
  all: try solve [intros ? [= <-]; rewrite <- truthy_orNull; assumption].
  all: right; eexists; (split; [reflexivity|]); cbv zeta.
  all: try solve [left; split; [reflexivity|eassumption]].
  all: try solve [right; left; repeat split; auto].
  all: try solve [do 2 right; left; repeat split; auto].
  all: try solve [do 3 right; left; repeat split; auto].
  all: try solve [do 4 right; left; eexists; repeat split; eauto].
  all: do 5 right; (split; [|split; [|reflexivity]]).
  all: try solve [intros s1 Hs1; destruct (Hexp s1 Hs1) as [<- _]; exact Hfree].
  all: match goal with
       | Hf : find _ _ = Some _, Hr : referencesExist _ _ _ = false |- _ =>
           unfold referencesExist in Hr; rewrite ?Hdb in Hr;
           cbn [prisma weaponValues values setWeaponValues] in Hr;
           rewrite (find_existsb _ _ _ Hf) in Hr; cbn [andb] in Hr;
           intros Hin; apply existsb_key in Hin;
           rewrite ?existsb_app, Hin in Hr; discriminate Hr
       end.
Qed.


Lemma updateWeapon_cases fuel user cad wid body w :
  match updateWeapon fuel user cad wid body w with
  | Returned r w' =>
      exists data x modelId sn,
        validateSchema WEAPON_SCHEMA body = inr data
        /\ find (fun y => Weapon.id y =? wid) (weapons (prisma w)) = Some x
        /\ r = applyWeaponUpdate modelId (WeaponData.registrationStatus data) sn x
        /\ weapons (prisma w') =
             map (fun y => if Weapon.id y =? wid
                           then applyWeaponUpdate modelId
                                  (WeaponData.registrationStatus data) sn y
                           else y)
                 (weapons (prisma w))
        /\ (if truthy (WeaponData.serialNumber data)
            then exists s, sn = Some s /\ WeaponData.serialNumber data = Some s
                           /\ taken w (Some wid) s = false
            else sn = None)
        /\ (if isFeatureEnabled cad CUSTOM_TEXTFIELD_VALUES false
            then In modelId (map WeaponValue.id (weaponValues (prisma w')))
            else modelId = WeaponData.model data)
  | Thrown e w' =>
      weapons (prisma w') = weapons (prisma w)
      /\ updateWeaponThrows user cad wid body w e
  | Pending => False
  end.
Proof.
  unfold updateWeapon, updateWeaponThrows. unfold_monad. split_cases;
    try use_allocator.
  all: try congruence.
  all: try rewrite Hdb in *.
  all: unfold taken in *.
  all: cbn [prisma weapons weaponValues setWeapons setWeaponValues] in *.
  all: repeat match goal with
       | H : find (fun r => String.eqb (Weapon.id r) ?i) _ = Some ?x |- _ =>
           lazymatch goal with
           | _ : Weapon.id x = i |- _ => fail
           | _ => pose proof (find_id_eq _ _ _ H)
           end
       end.
  all: repeat match goal with H : Weapon.id _ = _ |- _ => rewrite H in * end.
  all: repeat match goal with
       | H1 : find ?f ?l = Some ?x, H2 : find ?f ?l = Some ?y |- _ =>
           rewrite H1 in H2; injection H2 as <-
       end.
  all: try congruence.
  all: try match goal with
       | H : WeaponData.serialNumber _ = Some _ |- _ => rewrite H in *
       end.
  all: try (split; [reflexivity|]).
  all: try solve [left; reflexivity].
  all: try solve [right; eexists; (split; [reflexivity|]); cbv zeta;
                  first [ solve [left; split; [reflexivity|first [reflexivity|eassumption]]]
                        | solve [right; left; repeat split; auto]
                        | solve [do 2 right; left; repeat split; auto]
                        | solve [do 3 right; left; eexists; repeat split;
                                 first [reflexivity|eassumption]] ]].
  all: try solve
    [ right; eexists; (split; [reflexivity|]); cbv zeta;
      match goal with
      | Hr : referencesExist _ _ _ = false |- _ =>
          unfold referencesExist in Hr;
          cbn [prisma weaponValues values setWeaponValues] in Hr;
          apply andb_false_iff in Hr as [Hr|Hr];
          [ first
              [ exfalso; apply not_true_iff_false in Hr; apply Hr;
                apply existsb_key;
                first [ apply in_map; eapply find_some; eassumption
                      | rewrite map_app; apply in_or_app; right; now left ]
              | do 4 right; left; (split; [reflexivity|]);
                (split; [|split; [|reflexivity]]);
                [ intros Hin; apply existsb_key in Hin; rewrite Hin in Hr;
                  discriminate Hr
                | intros s1 Hs1 Ht1;
                  first [ congruence
                        | destruct (Hexp s1 Hs1) as [<- _]; assumption ] ] ]
          | do 5 right; (split; [|split; [|reflexivity]]);
            [ intros Hin; apply existsb_key in Hin;
              rewrite ?existsb_app, Hin in Hr; discriminate Hr
            | intros s1 Hs1 Ht1;
              first [ congruence
                    | destruct (Hexp s1 Hs1) as [<- _]; assumption ] ] ]
      end ].
  all: do 4 eexists; repeat (split; [reflexivity|]).
  all: match goal with H : truthy _ = _ |- _ => rewrite H end.
  all: split; try reflexivity.
  all: try (destruct (WeaponData.serialNumber t) as [s0|] eqn:Hsn; [|discriminate];
            destruct (Hexp s0 eq_refl) as [-> ->]; exists s0; now repeat split).
  all: try rewrite Hdb.
  all: cbn [prisma weaponValues setWeaponValues].
  all: try (apply in_map; eapply find_some; eassumption).
  all: rewrite map_app; apply in_or_app; right; now left.
Qed.

Lemma deleteWeapon_cases user cad wid w :
  match deleteWeapon user cad wid w with
  | Returned b w' =>
      b = true
      /\ (exists x, find (fun y => Weapon.id y =? wid) (weapons (prisma w)) = Some x)
      /\ weapons (prisma w') =
           filter (fun y => negb (Weapon.id y =? wid)) (weapons (prisma w))
  | Thrown e w' => w' = w
  | Pending => False
  end.
Proof.
  unfold deleteWeapon. unfold_monad. split_cases; try reflexivity.
  all: repeat match goal with
       | H : find (fun r => String.eqb (Weapon.id r) ?i) _ = Some ?x |- _ =>
           lazymatch goal with
           | _ : Weapon.id x = i |- _ => fail
           | _ => pose proof (find_id_eq _ _ _ H)
           end
       end.
  all: repeat match goal with H : Weapon.id _ = _ |- _ => rewrite H in * end.
  all: split; [reflexivity|]; split; [eexists; reflexivity|reflexivity].
Qed.

End WeaponEndpoints.

(* ------------------------------------------------------------------------- *)
(** ** Claims about the weapon registry *)

Section WeaponClaims.
Context {E : Env}.


(** C3: called without a serial number (as [registerWeapon] does, with no
    weapon to skip), the allocator asks [generateString] for a string of
    length [SERIAL_NUMBER_LENGTH = 10], looks it up among the weapons without
    regard to case, and tries the next draw for as long as the lookup finds a
    weapon.  It never throws; it returns the first draw that no weapon
    carries, which therefore collides with no existing serial number; and it
    is still pending only if every draw the budget allows is in use.  The
    lookup is the database's insensitive match with the draw as its pattern;
    for draws that are plain (ASCII, none of [%], [_], backslash) this is
    equality up to case, so the returned draw differs from every existing
    serial number in more than letter case. *)
Theorem generateOrValidateSerialNumber_generates_unused (fuel : nat) (w : World) :
  SERIAL_NUMBER_LENGTH = 10
  /\ match generateOrValidateSerialNumber fuel None None w with
     | Returned r w' =>
         (exists k, k <= fuel
            /\ r = generateString 10 (seed w + k)
            /\ (forall j, j < k ->
                  exists x, In x (weapons (prisma w))
                    /\ equalsInsensitive (Weapon.serialNumber x)
                         (generateString 10 (seed w + j)) = true)
            /\ seed w' = seed w + k + 1)
         /\ prisma w' = prisma w
         /\ (forall x, In x (weapons (prisma w)) ->
               equalsInsensitive (Weapon.serialNumber x) r = false)
         /\ ((forall n m, String.length (generateString n m) = n) ->
               String.length r = 10)
         /\ ((forall n m, plain (generateString n m) = true) ->
             forall x, In x (weapons (prisma w)) ->
               sameUpToCase (Weapon.serialNumber x) r = false)
     | Thrown _ _ => False
     | Pending =>
         forall j, j <= fuel ->
           exists x, In x (weapons (prisma w))
             /\ equalsInsensitive (Weapon.serialNumber x)
                  (generateString 10 (seed w + j)) = true
     end.
Proof.
  split; [reflexivity|].
  pose proof (generateOrValidateSerialNumber_generated fuel None w) as H.
  assert (forall s, taken w None s = true ->
            exists x, In x (weapons (prisma w))
              /\ equalsInsensitive (Weapon.serialNumber x) s = true) as Hin.
  { intros s Hs. apply taken_true in Hs as (x & Hx & Heq & _). eauto. }
  destruct (generateOrValidateSerialNumber fuel None None w) as [r w'|e w'|].
  - destruct H as (k & Hk & Hr & Hw & Hbefore & Hfree). repeat split.
    + exists k. repeat split; auto.
      * intros j Hj. apply Hin. apply (Hbefore j Hj).
      * rewrite Hw. reflexivity.
    + rewrite Hw. reflexivity.
    + apply taken_None. exact Hfree.
    + intros Hlen. rewrite Hr. unfold draw. apply Hlen.
    + intros Hplain x Hx.
      rewrite <- (equalsInsensitive_plain (Weapon.serialNumber x) r).
      * exact (proj1 (taken_None w r) Hfree x Hx).
      * rewrite Hr. unfold draw. apply Hplain.
  - exact H.
  - intros j Hj. apply Hin. apply (H j Hj).
Qed.


(** The primary key stays a key: a created weapon gets an id no weapon has,
    an update keeps every id, a deletion removes rows. *)
Lemma weapon_operations_keep_ids_unique (w : World) :
  WeaponIdsUnique (prisma w) ->
  (forall fuel user cad body w',
      finalState (registerWeapon fuel user cad body w) = Some w' ->
      WeaponIdsUnique (prisma w'))
  /\ (forall fuel user cad weaponId body w',
      finalState (updateWeapon fuel user cad weaponId body w) = Some w' ->
      WeaponIdsUnique (prisma w'))
  /\ (forall user cad weaponId w',
      finalState (deleteWeapon user cad weaponId w) = Some w' ->
      WeaponIdsUnique (prisma w')).
Proof.
  unfold WeaponIdsUnique. intros Hids. split; [|split].
  - intros fuel user cad body w' Hfinal.
    pose proof (registerWeapon_cases fuel user cad body w) as H.
    destruct (registerWeapon fuel user cad body w) as [r w1|e w1|];
      simpl in Hfinal; try discriminate; injection Hfinal as <-.
    + destruct H as (Hws & _ & Hid & _). rewrite Hws.
      apply NoDup_map_snoc; [exact Hids|].
      intros x Hx Heq. apply (cuid_fresh (map Weapon.id (weapons (prisma w)))).
      rewrite <- Hid, <- Heq. now apply in_map.
    + destruct H as [Hws _]. now rewrite Hws.
  - intros fuel user cad weaponId body w' Hfinal.
    pose proof (updateWeapon_cases fuel user cad weaponId body w) as H.
    destruct (updateWeapon fuel user cad weaponId body w) as [r w1|e w1|];
      simpl in Hfinal; try discriminate; injection Hfinal as <-.
    + destruct H as (data & x0 & modelId & sn & _ & _ & _ & Hws & _).
      rewrite Hws, map_map.
      erewrite map_ext; [exact Hids|]. intros y.
      destruct (Weapon.id y =? weaponId); reflexivity.
    + destruct H as [Hws _]. now rewrite Hws.
  - intros user cad weaponId w' Hfinal.
    pose proof (deleteWeapon_cases user cad weaponId w) as H.
    destruct (deleteWeapon user cad weaponId w) as [b w1|e w1|];
      simpl in Hfinal; try discriminate; injection Hfinal as <-.
    + destruct H as (_ & _ & Hws). rewrite Hws. now apply NoDup_map_filter.
    + now subst.
Qed.



Lemma In_firstn {A} (n : nat) (l : list A) (x : A) : In x (firstn n l) -> In x l.
Proof. intros H. rewrite <- (firstn_skipn n l). apply in_or_app. now left. Qed.

Lemma In_skipn {A} (n : nat) (l : list A) (x : A) : In x (skipn n l) -> In x l.
Proof. intros H. rewrite <- (firstn_skipn n l). apply in_or_app. now right. Qed.

(** What the [where] of [getCitizenWeapons] selects: the weapons of the
    citizen, narrowed by the query when there is a non-empty one. *)
Lemma citizenWeaponsWhere_spec (d : DB) (citizenId : string) (query : option string)
    (x : Weapon.t) :
  citizenWeaponsWhere d citizenId query x = true <->
  Weapon.citizenId x = citizenId
  /\ (truthy query = false
      \/ exists q, query = Some q
           /\ (modelContains d q x = true
               \/ registrationStatusContains d q x = true
               \/ containsInsensitive (Weapon.serialNumber x) q = true)).
Proof.
  unfold citizenWeaponsWhere. rewrite andb_true_iff, String.eqb_eq.
  destruct query as [q|]; [destruct (truthy (Some q)) eqn:Ht|].
  - rewrite !orb_true_iff. split.
    + intros [Hc H]. split; [assumption|]. right. exists q. split; [reflexivity|tauto].
    + intros [Hc [H|(q' & Hq & H)]]; [discriminate|].
      injection Hq as <-. tauto.
  - tauto.
  - simpl. tauto.
Qed.

(** C8: [getCitizenWeapons] returns a page and a count exactly when its
    lookup finds the citizen (by id, and by the caller's user id when
    citizens are bound to their user); otherwise it throws [NotFound].  The
    page holds at most [MAX_ITEMS_PER_TABLE_PAGE = 12] weapons, all of them
    selected by the [where]; it is as long as the selection allows after
    [skip] rows.  The count is the size of the whole selection, whatever
    [skip] is and however many rows the page holds.  The database is left as it
    was. *)
Theorem getCitizenWeapons_page_and_count (citizenId : string) (user : User.t)
    (cad : Cad) (skip : nat) (query : option string) (w : World) :
  MAX_ITEMS_PER_TABLE_PAGE = 12
  /\ ((exists c, In c (citizens (prisma w))
          /\ Citizen.id c = citizenId
          /\ (shouldCheckCitizenUserId cad user = true ->
              Citizen.userId c = Some (User.id user)))
      <-> exists r, getCitizenWeapons citizenId user cad skip query w = Returned r w)
  /\ match getCitizenWeapons citizenId user cad skip query w with
     | Returned r w' =>
         let selection :=
           filter (citizenWeaponsWhere (prisma w) citizenId query)
                  (weapons (prisma w)) in
         w' = w
         /\ List.length (weapons_ r) <= 12
         /\ totalCount r = List.length selection
         /\ List.length (weapons_ r) = Nat.min 12 (totalCount r - skip)
         /\ (forall x, In x (weapons_ r) -> In x selection)
     | Thrown e w' => e = NotFound "citizenNotFound" /\ w' = w
     | Pending => False
     end.
Proof.
  split; [reflexivity|].
  unfold getCitizenWeapons. unfold_monad.
  destruct (find _ (citizens (prisma w))) as [c|] eqn:Hfind; cbv beta iota zeta.
  - split.
    + split; [eauto|]. intros _. exists c.
      apply find_some in Hfind as [Hin Hc].
      apply andb_true_iff in Hc as [Hid Hu]. apply String.eqb_eq in Hid.
      split; [exact Hin|]. split; [exact Hid|]. intros Hcheck.
      rewrite Hcheck in Hu. destruct (Citizen.userId c) as [u|]; [|discriminate].
      cbn [option_eqb] in Hu. apply String.eqb_eq in Hu. now subst.
    + cbn [weapons_ totalCount]. unfold MAX_ITEMS_PER_TABLE_PAGE.
      split; [reflexivity|]. split; [apply firstn_le_length|].
      split; [reflexivity|]. split.
      * rewrite length_firstn, length_skipn, length_orderByCreatedAtDesc.
        reflexivity.
      * intros x Hx. apply In_firstn, In_skipn in Hx.
        exact (proj1 (In_orderByCreatedAtDesc _ _) Hx).
  - split; [|split; reflexivity].
    split; [|intros (r & [=])]. intros (c & Hin & Hid & Hu). exfalso.
    pose proof (find_none _ _ Hfind c Hin) as Hc. cbv beta in Hc.
    rewrite Hid, String.eqb_refl in Hc. cbn [andb] in Hc.
    destruct (shouldCheckCitizenUserId cad user); [|discriminate].
    rewrite (Hu eq_refl) in Hc. cbn [option_eqb] in Hc.
    rewrite String.eqb_refl in Hc. discriminate.
Qed.

End WeaponClaims.

(* ------------------------------------------------------------------------- *)
(** ** Name-change requests *)

Section NameChangeClaims.
Context {E : Env}.

Lemma find_none_filter {A} (p : A -> bool) (l : list A) :
  find p l = None <-> filter p l = [].
Proof.
  induction l as [|a t IH]; simpl; [tauto|].
  destruct (p a); [split; discriminate | exact IH].
Qed.

Lemma length_filter_snoc {A} (p : A -> bool) (l : list A) (a : A) :
  List.length (filter p (l ++ [a]))
  = List.length (filter p l) + (if p a then 1 else 0).
Proof.
  rewrite filter_app, length_app. simpl. destruct (p a); reflexivity.
Qed.

Lemma pendingOf_inv (citizenId userId : string) (r : NameChangeRequest.t) :
  pendingOf citizenId userId r = true <->
  NameChangeRequest.citizenId r = citizenId
  /\ NameChangeRequest.userId r = Some userId
  /\ NameChangeRequest.status r = PENDING.
Proof.
  unfold pendingOf. rewrite !andb_true_iff, String.eqb_eq.
  assert (option_eqb (NameChangeRequest.userId r) userId = true
          <-> NameChangeRequest.userId r = Some userId) as ->.
  { destruct (NameChangeRequest.userId r) as [u|]; simpl.
    - rewrite String.eqb_eq. split; congruence.
    - split; discriminate. }
  assert (WhitelistStatus_eqb (NameChangeRequest.status r) PENDING = true
          <-> NameChangeRequest.status r = PENDING) as ->.
  { destruct (NameChangeRequest.status r); simpl; split; congruence. }
  tauto.
Qed.

Lemma pendingOfCitizen_inv (citizenId : string) (r : NameChangeRequest.t) :
  pendingOfCitizen citizenId r = true <->
  NameChangeRequest.citizenId r = citizenId
  /\ NameChangeRequest.status r = PENDING.
Proof.
  unfold pendingOfCitizen. rewrite andb_true_iff, String.eqb_eq.
  assert (WhitelistStatus_eqb (NameChangeRequest.status r) PENDING = true
          <-> NameChangeRequest.status r = PENDING) as ->.
  { destruct (NameChangeRequest.status r); simpl; split; congruence. }
  tauto.
Qed.

(** The outcome of [requestNameChange], test by test. *)
Lemma requestNameChange_eq (body : Body) (user : User.t) (w : World) :
  requestNameChange body user w =
  match validateSchema NAME_CHANGE_REQUEST_SCHEMA body with
  | inl e => Thrown e w
  | inr data =>
      match citizenOf w (NameChangeData.citizenId data) user with
      | None => Thrown (NotFound "citizenNotFound") w
      | Some citizen =>
          if fullname (Citizen.name citizen) (Citizen.surname citizen)
             =? fullname (NameChangeData.newName data) (NameChangeData.newSurname data)
          then Thrown (ExtendedBadRequest "citizenId" "nameChangeRequestNotNew") w
          else
            match pendingRequests (prisma w) (NameChangeData.citizenId data)
                    (User.id user) with
            | _ :: _ =>
                Thrown (ExtendedBadRequest "citizenId" "alreadyPendingNameChange") w
            | [] =>
                Returned (filedRequest w data user)
                  (setNameChangeRequests
                     (nameChangeRequests (prisma w) ++ [filedRequest w data user]) w)
            end
      end
  end.
Proof.
  unfold requestNameChange, citizenOf, pendingRequests, filedRequest. unfold_monad.
  destruct (validateSchema NAME_CHANGE_REQUEST_SCHEMA body) as [e|data];
    [reflexivity|].
  destruct (find _ (citizens (prisma w))) as [c|]; [|reflexivity].
  destruct (_ =? _); [reflexivity|].
  destruct (find _ (nameChangeRequests (prisma w))) as [r|] eqn:Hf.
  - destruct (filter _ (nameChangeRequests (prisma w))) eqn:Hfilter; [|reflexivity].
    apply find_none_filter in Hfilter. congruence.
  - apply find_none_filter in Hf. rewrite Hf. reflexivity.
Qed.

(** C9: when the full name asked for ([newName], a space, [newSurname]) is
    the same string as the current full name of the citizen the call works on,
    [requestNameChange] throws the field error [citizenId:
    nameChangeRequestNotNew] and leaves the world, and so the list of
    requests, as it was. *)
Theorem requestNameChange_same_name (body : Body) (user : User.t)
    (data : NameChangeData.t) (citizen : Citizen.t) (w : World) :
  validateSchema NAME_CHANGE_REQUEST_SCHEMA body = inr data ->
  citizenOf w (NameChangeData.citizenId data) user = Some citizen ->
  fullname (NameChangeData.newName data) (NameChangeData.newSurname data)
    = fullname (Citizen.name citizen) (Citizen.surname citizen) ->
  requestNameChange body user w
    = Thrown (ExtendedBadRequest "citizenId" "nameChangeRequestNotNew") w
  /\ forall w', finalState (requestNameChange body user w) = Some w' ->
       nameChangeRequests (prisma w') = nameChangeRequests (prisma w).
Proof.
  intros Hvalid Hcitizen Hsame.
  assert (requestNameChange body user w
          = Thrown (ExtendedBadRequest "citizenId" "nameChangeRequestNotNew") w) as Heq.
  { rewrite requestNameChange_eq, Hvalid, Hcitizen, Hsame, String.eqb_refl.
    reflexivity. }
  split; [exact Heq|]. intros w'. rewrite Heq. simpl. now intros [= <-].
Qed.

(** C7, as amended: the query of [requestNameChange] looks for a pending
    request of the target citizen filed by the requesting user.  Whatever the
    outcome of a call, "at most one pending request per citizen and requesting
    user" is preserved.  Once the citizen is found among the user's citizens
    and the new full name differs from the current one, the call throws the
    field error [citizenId: alreadyPendingNameChange] when such a request
    exists, and otherwise files one new pending request and nothing else.
    "At most one pending request per citizen" is preserved as well when every
    pending request of the target citizen was filed by the requesting user. *)
Theorem requestNameChange_one_pending_per_citizen_and_user (body : Body)
    (user : User.t) (w : World) :
  OnePendingPerCitizenAndUser (prisma w) ->
  (forall w', finalState (requestNameChange body user w) = Some w' ->
     OnePendingPerCitizenAndUser (prisma w'))
  /\ (forall data citizen,
       validateSchema NAME_CHANGE_REQUEST_SCHEMA body = inr data ->
       citizenOf w (NameChangeData.citizenId data) user = Some citizen ->
       fullname (NameChangeData.newName data) (NameChangeData.newSurname data)
         <> fullname (Citizen.name citizen) (Citizen.surname citizen) ->
       (pendingRequests (prisma w) (NameChangeData.citizenId data) (User.id user) <> [] ->
        requestNameChange body user w
          = Thrown (ExtendedBadRequest "citizenId" "alreadyPendingNameChange") w)
       /\ (pendingRequests (prisma w) (NameChangeData.citizenId data) (User.id user) = [] ->
           requestNameChange body user w
             = Returned (filedRequest w data user)
                 (setNameChangeRequests
                    (nameChangeRequests (prisma w) ++ [filedRequest w data user]) w)))
  /\ (forall data w',
       validateSchema NAME_CHANGE_REQUEST_SCHEMA body = inr data ->
       (forall r, In r (nameChangeRequests (prisma w)) ->
          pendingOfCitizen (NameChangeData.citizenId data) r = true ->
          NameChangeRequest.userId r = Some (User.id user)) ->
       OnePendingPerCitizen (prisma w) ->
       finalState (requestNameChange body user w) = Some w' ->
       OnePendingPerCitizen (prisma w')).
Proof.
  intros Hinv. split; [|split].
  - intros w'. rewrite requestNameChange_eq.
    destruct (validateSchema NAME_CHANGE_REQUEST_SCHEMA body) as [e|data];
      [now intros [= <-]|].
    destruct (citizenOf w (NameChangeData.citizenId data) user) as [c|];
      [|now intros [= <-]].
    destruct (_ =? _); [now intros [= <-]|].
    destruct (pendingRequests (prisma w) (NameChangeData.citizenId data)
                (User.id user)) eqn:Hpending; [|now intros [= <-]].
    intros [= <-] cid uid. unfold pendingRequests. cbn [prisma nameChangeRequests
      setNameChangeRequests]. rewrite length_filter_snoc.
    destruct (pendingOf cid uid (filedRequest w data user)) eqn:Hp.
    + apply pendingOf_inv in Hp as (Hc & Hu & _). simpl in Hc, Hu.
      injection Hu as Hu. subst cid uid. unfold pendingRequests in Hpending.
      rewrite Hpending. simpl. lia.
    + specialize (Hinv cid uid). unfold pendingRequests in Hinv. lia.
  - intros data c Hvalid Hcitizen Hnew.
    assert ((fullname (Citizen.name c) (Citizen.surname c)
             =? fullname (NameChangeData.newName data)
                  (NameChangeData.newSurname data)) = false) as Hneq.
    { apply String.eqb_neq. congruence. }
    split; intros Hpending; rewrite requestNameChange_eq, Hvalid, Hcitizen, Hneq.
    + destruct (pendingRequests _ _ _); [contradiction|reflexivity].
    + rewrite Hpending. reflexivity.
  - intros data w' Hvalid Hfiled Hone. rewrite requestNameChange_eq, Hvalid.
    destruct (citizenOf w (NameChangeData.citizenId data) user) as [c|];
      [|now intros [= <-]].
    destruct (_ =? _); [now intros [= <-]|].
    destruct (pendingRequests (prisma w) (NameChangeData.citizenId data)
                (User.id user)) eqn:Hpending; [|now intros [= <-]].
    intros [= <-] cid. cbn [prisma nameChangeRequests setNameChangeRequests].
    rewrite length_filter_snoc.
    destruct (pendingOfCitizen cid (filedRequest w data user)) eqn:Hp.
    + apply pendingOfCitizen_inv in Hp as (Hc & _). simpl in Hc. subst cid.
      assert (filter (pendingOfCitizen (NameChangeData.citizenId data))
                (nameChangeRequests (prisma w)) = []) as ->; [|simpl; lia].
      destruct (filter _ _) as [|r t] eqn:Hfilter; [reflexivity|exfalso].
      assert (In r (filter (pendingOfCitizen (NameChangeData.citizenId data))
                      (nameChangeRequests (prisma w)))) as Hr
        by (rewrite Hfilter; now left).
      apply filter_In in Hr as [Hin Hr].
      pose proof (Hfiled r Hin Hr) as Hu.
      apply pendingOfCitizen_inv in Hr as (Hc & Hs).
      assert (In r (pendingRequests (prisma w) (NameChangeData.citizenId data)
                      (User.id user))) as Habs.
      { apply filter_In. split; [assumption|]. now apply pendingOf_inv. }
      rewrite Hpending in Habs. destruct Habs.
    + specialize (Hone cid). lia.
Qed.

End NameChangeClaims.

(* ------------------------------------------------------------------------- *)
(** ** Active-officer resolution *)

Section ActiveOfficerClaims.
Context {L : LeoEnv}.

(** The outcome of [getActiveOfficer], test by test. *)
Lemma getActiveOfficer_eq (req : Req) (user : User.t) (w : LeoWorld) :
  getActiveOfficer req user w =
  if isFromDispatch req
  then
    if hasPermission user [Permissions_Dispatch] User.isDispatch
    then Returned None w
    else Thrown (Unauthorized "Must be dispatch to use this header.") w
  else
    if hasPermission user defaultLeoPermissions User.isLeo
    then
      match find (combinedUnitWhere (User.id user)) (combinedLeoUnits w) with
      | Some u => Returned (Some (IsCombinedUnit u)) (afterLookups w)
      | None =>
          match find (officerWhere (User.id user) (unitsInactivityFilter w))
                  (officers w) with
          | Some o => Returned (Some (IsOfficer o)) (afterLookups w)
          | None =>
              Thrown (BadRequest "noActiveOfficer")
                (withoutActiveOfficer (afterLookups w))
          end
      end
    else Thrown (Forbidden "Invalid Permissions") w.
Proof.
  unfold getActiveOfficer, logQuery, ctx_delete, nullish, unitsInactivityFilter,
    afterLookups, withoutActiveOfficer.
  cbv beta iota zeta delta [bind ret throw gets modify].
  destruct (isFromDispatch req).
  - destruct (hasPermission user [Permissions_Dispatch] User.isDispatch);
      reflexivity.
  - destruct (hasPermission user defaultLeoPermissions User.isLeo);
      [|reflexivity].
    cbn [combinedLeoUnits officers cads ctx queries clock negb].
    destruct (find (combinedUnitWhere (User.id user)) (combinedLeoUnits w));
      [reflexivity|].
    destruct (find _ (officers w)); reflexivity.
Qed.

(** The header test, read off the request. *)
Lemma isFromDispatch_spec (req : Req) :
  isFromDispatch req = true <->
  exists h, header req "is-from-dispatch" = Some h /\ toString h = "true".
Proof.
  unfold isFromDispatch. destruct (header req "is-from-dispatch") as [h|].
  - rewrite String.eqb_eq. split; [eauto|]. now intros (h' & [= <-] & H).
  - split; [discriminate|]. now intros (h & [=] & _).
Qed.

(** What the [where] of the officer query selects. *)
Lemma officerWhere_spec (userId : string) (cutoff : option Z) (o : Officer.t) :
  officerWhere userId cutoff o = true <->
  Officer.userId o = Some userId
  /\ (exists st, Officer.status o = Some st
        /\ StatusValue.shouldDo st <> "SET_OFF_DUTY")
  /\ match cutoff with
     | Some c =>
         exists t, Officer.lastStatusChangeTimestamp o = Some t /\ (c < t)%Z
     | None => True
     end.
Proof.
  unfold officerWhere, officerFilters, sql_OR, userIdIs, statusIsOffDuty,
    statusIsNull, timestampLte.
  destruct cutoff as [c|]; cbn [app fold_right];
    (destruct (Officer.userId o) as [u|];
       [destruct (String.eqb_spec u userId) as [Hu|Hu]|]);
    (destruct (Officer.status o) as [st|];
       [destruct (String.eqb_spec (StatusValue.shouldDo st) "SET_OFF_DUTY")
          as [Hs|Hs]|]);
    try (destruct (Officer.lastStatusChangeTimestamp o) as [t|];
           [destruct (Z.leb_spec t c)|]);
    simpl; (split; intro Hw; try discriminate Hw; try reflexivity).
  all: try solve [subst; split; [reflexivity|];
                  split; [eexists; split; [reflexivity|assumption]|];
                  first [exact I | eexists; split; [reflexivity|lia]]].
  all: exfalso; destruct Hw as (Hu' & (st' & Hst & Hne) & Hc); try congruence.
  all: try solve [injection Hst as <-; contradiction].
  all: destruct Hc as (t' & Ht & Hlt); try discriminate; injection Ht as <-; lia.
Qed.

(** What the [where] of the combined-unit query selects. *)
Lemma combinedUnitWhere_spec (userId : string) (u : CombinedLeoUnit.t) :
  combinedUnitWhere userId u = true <->
  (forall st, CombinedLeoUnit.status u = Some st ->
     StatusValue.shouldDo st <> "SET_OFF_DUTY")
  /\ exists o, In o (CombinedLeoUnit.officers u)
       /\ Officer.userId o = Some userId.
Proof.
  unfold combinedUnitWhere, statusIsOffDuty, userIdIs.
  assert (existsb (fun o => selected
                    match Officer.userId o with
                    | Some u0 => Some (u0 =? userId)
                    | None => None
                    end) (CombinedLeoUnit.officers u) = true
          <-> exists o, In o (CombinedLeoUnit.officers u)
                /\ Officer.userId o = Some userId) as Hex.
  { rewrite existsb_exists. split; intros (o & Hin & Ho); exists o; split; auto.
    - destruct (Officer.userId o) as [u0|]; [|discriminate]. simpl in Ho.
      destruct (String.eqb_spec u0 userId); [congruence|discriminate].
    - rewrite Ho. simpl. now rewrite String.eqb_refl. }
  rewrite <- Hex. clear Hex.
  destruct (existsb _ (CombinedLeoUnit.officers u));
    (destruct (CombinedLeoUnit.status u) as [st|];
       [destruct (String.eqb_spec (StatusValue.shouldDo st) "SET_OFF_DUTY")
          as [Hs|Hs]|]);
    simpl; (split; intro Hw; try discriminate Hw; try reflexivity).
  all: try solve [split; [intros st' Hst; congruence | reflexivity]].
  all: destruct Hw as [Hn He]; try discriminate He.
  all: exfalso; now apply (Hn st).
Qed.

(** C6: with the header [is-from-dispatch] equal to ["true"], a user who has
    the dispatch permission gets [null] and the world is untouched, so no
    query has been sent; a user who has not gets [Unauthorized].  Without
    that header, a user who lacks the default LEO permissions gets
    [Forbidden]. *)
Theorem getActiveOfficer_dispatch_header (req : Req) (user : User.t) (w : LeoWorld) :
  (isFromDispatch req = true ->
   hasPermission user [Permissions_Dispatch] User.isDispatch = true ->
   getActiveOfficer req user w = Returned None w
   /\ forall r w', getActiveOfficer req user w = Returned r w' ->
        queries w' = queries w)
  /\ (isFromDispatch req = true ->
      hasPermission user [Permissions_Dispatch] User.isDispatch = false ->
      getActiveOfficer req user w
        = Thrown (Unauthorized "Must be dispatch to use this header.") w)
  /\ (isFromDispatch req = false ->
      hasPermission user defaultLeoPermissions User.isLeo = false ->
      getActiveOfficer req user w = Thrown (Forbidden "Invalid Permissions") w).
Proof.
  rewrite getActiveOfficer_eq. split; [|split]; intros -> ->; try reflexivity.
  split; [reflexivity|]. now intros r w' [= _ <-].
Qed.

(** C5: when a request that does not come from dispatch is answered with an
    officer record, that record is one of the requesting user's officers, it
    has a status, the status does not say [SET_OFF_DUTY], and, when the CAD's
    inactivity timeout yields a cutoff, its last status change is not at or
    before the cutoff. *)
Theorem getActiveOfficer_solo_officer (req : Req) (user : User.t) (w w' : LeoWorld)
    (o : Officer.t) :
  getActiveOfficer req user w = Returned (Some (IsOfficer o)) w' ->
  isFromDispatch req = false
  /\ In o (officers w)
  /\ Officer.userId o = Some (User.id user)
  /\ (exists st, Officer.status o = Some st
        /\ StatusValue.shouldDo st <> "SET_OFF_DUTY")
  /\ (forall cutoff, unitsInactivityFilter w = Some cutoff ->
        ~ exists t, Officer.lastStatusChangeTimestamp o = Some t
                    /\ (t <= cutoff)%Z).
Proof.
  rewrite getActiveOfficer_eq.
  destruct (isFromDispatch req).
  { destruct (hasPermission user [Permissions_Dispatch] User.isDispatch);
      discriminate. }
  destruct (hasPermission user defaultLeoPermissions User.isLeo); [|discriminate].
  destruct (find (combinedUnitWhere (User.id user)) (combinedLeoUnits w));
    [discriminate|].
  destruct (find _ (officers w)) as [o'|] eqn:Hfind; [|discriminate].
  intros [= -> _]. apply find_some in Hfind as [Hin Hwhere].
  apply officerWhere_spec in Hwhere as (Hu & Hst & Hcut).
  repeat split; auto.
  intros cutoff Hc (t & Ht & Hle). rewrite Hc in Hcut.
  destruct Hcut as (t' & Ht' & Hlt). rewrite Ht in Ht'. injection Ht' as <-. lia.
Qed.

(** C4, as amended: the header comes first: with [is-from-dispatch] equal to
    ["true"] the outcome is [null] or [Unauthorized], whatever units the user
    has.  Otherwise, for a user who holds the default LEO permissions, a
    combined unit selected by the first query is returned whether or not the
    officer query selects a record of the user as well; an officer is
    returned only when no combined unit is selected. *)
Theorem getActiveOfficer_precedence (req : Req) (user : User.t) (w : LeoWorld) :
  (isFromDispatch req = true ->
   getActiveOfficer req user w = Returned None w
   \/ getActiveOfficer req user w
        = Thrown (Unauthorized "Must be dispatch to use this header.") w)
  /\ (isFromDispatch req = false ->
      hasPermission user defaultLeoPermissions User.isLeo = true ->
      forall u,
        In u (combinedLeoUnits w) ->
        combinedUnitWhere (User.id user) u = true ->
        exists u',
          getActiveOfficer req user w
            = Returned (Some (IsCombinedUnit u')) (afterLookups w)
          /\ In u' (combinedLeoUnits w)
          /\ combinedUnitWhere (User.id user) u' = true)
  /\ (isFromDispatch req = false ->
      hasPermission user defaultLeoPermissions User.isLeo = true ->
      (forall u, In u (combinedLeoUnits w) ->
         combinedUnitWhere (User.id user) u = false) ->
      forall o,
        In o (officers w) ->
        officerWhere (User.id user) (unitsInactivityFilter w) o = true ->
        exists o',
          getActiveOfficer req user w
            = Returned (Some (IsOfficer o')) (afterLookups w)
          /\ In o' (officers w)
          /\ officerWhere (User.id user) (unitsInactivityFilter w) o' = true).
Proof.
  rewrite getActiveOfficer_eq. split; [|split].
  - intros ->.
    destruct (hasPermission user [Permissions_Dispatch] User.isDispatch); auto.
  - intros -> -> u Hin Hu.
    destruct (find_some_exists _ _ u Hin Hu) as (u' & Hfind).
    rewrite Hfind. exists u'. split; [reflexivity|].
    now apply find_some in Hfind.
  - intros -> -> Hnone o Hin Ho.
    rewrite (proj2 (find_none_iff _ _) Hnone).
    destruct (find_some_exists _ _ o Hin Ho) as (o' & Hfind).
    rewrite Hfind. exists o'. split; [reflexivity|].
    now apply find_some in Hfind.
Qed.

End ActiveOfficerClaims.

(* ------------------------------------------------------------------------- *)
(** ** The model at work, and the statements applied to it *)

Example registerWeapon_generates_second_draw :
  option_map (fun w' => map Weapon.serialNumber (weapons (prisma w')))
    (finalState (registerWeapon 5 alice demoCad
                   (WeaponBody (WeaponData.mk "c1" "m1" "s1" None)) demoWorld))
  = Some ["AAAAAAAAAA"; "XyZ-1"; "BBBBBBBBBB"].
Proof. vm_compute. reflexivity. Qed.

Example getCitizenWeapons_thirteen_weapons :
  match getCitizenWeapons "c1" alice demoCad 0 None crowdedWorld with
  | Returned r _ => (List.length (weapons_ r), totalCount r) = (12, 13)
  | _ => False
  end.
Proof. vm_compute. reflexivity. Qed.

Example getCitizenWeapons_query_on_model :
  match getCitizenWeapons "c1" alice demoCad 0 (Some "PIST") demoWorld with
  | Returned r _ => (map Weapon.id (weapons_ r), totalCount r) = (["w2"; "w1"], 2)
  | _ => False
  end.
Proof. vm_compute. reflexivity. Qed.

(** The allocator on the demo database: the first draw is the serial number
    of weapon ["w1"], the second one is free. *)
Lemma generateOrValidateSerialNumber_generates_unused_witness :
  generateOrValidateSerialNumber 5 None None demoWorld
    = Returned "BBBBBBBBBB" (mkWorld demoDB 2 100)
  /\ forall x, In x (weapons demoDB) ->
       equalsInsensitive (Weapon.serialNumber x) "BBBBBBBBBB" = false.
Proof.
  assert (generateOrValidateSerialNumber 5 None None demoWorld
          = Returned "BBBBBBBBBB" (mkWorld demoDB 2 100)) as Heq
    by (vm_compute; reflexivity).
  split; [exact Heq|].
  pose proof (generateOrValidateSerialNumber_generates_unused (E:=demoEnv) 5 demoWorld)
    as [_ H].
  rewrite Heq in H. exact (proj1 (proj2 (proj2 H))).
Defined.

Lemma demoDB_ids_unique : WeaponIdsUnique demoDB.
Proof. apply distinct_NoDup. reflexivity. Defined.






Example updateWeapon_keeps_serial_number_run :
  option_map (fun w' => weapons (prisma w'))
    (finalState (updateWeapon 5 alice demoCad "w2"
                   (WeaponBody (WeaponData.mk "c1" "m2" "s2" (Some ""))) stockedWorld))
  = Some [ Weapon.mk "w1" "c1" (Some "u1") "m1" "s1" "AAAAAAAAAA" 10;
           Weapon.mk "w2" "c1" (Some "u1") "m2" "s2" "XyZ-1" 20 ].
Proof. vm_compute. reflexivity. Qed.

(** A model or a registration status that no row carries is refused by the
    update itself. *)
Example updateWeapon_unknown_references :
  updateWeapon 5 alice demoCad "w2"
    (WeaponBody (WeaponData.mk "c1" "m9" "s9" (Some ""))) demoWorld
  = Thrown foreignKeyError demoWorld.
Proof. vm_compute. reflexivity. Qed.

(** The insensitive filters read their value as a pattern: [_] and [%] are
    wildcards, a backslash escapes. *)
Example insensitive_filters_read_patterns :
  equalsInsensitive "AB1" "A_1" = true
  /\ equalsInsensitive "A\B" "a\b" = false
  /\ equalsInsensitive "ab" "A\B" = true
  /\ equalsInsensitive "XyZ-1" "xyz-1" = true
  /\ containsInsensitive "Pistol" "p_s" = true
  /\ containsInsensitive "100%" "\%" = true
  /\ containsInsensitive "100" "\%" = false.
Proof. vm_compute. repeat split. Qed.

(** A serial number with a wildcard finds another weapon's: weapon ["w8"]
    cannot be updated with its own serial number [A_1] while [AB1] exists. *)
Example updateWeapon_wildcard_serial_number :
  updateWeapon 5 alice demoCad "w8"
    (WeaponBody (WeaponData.mk "c1" "m1" "s1" (Some "A_1")))
    (setWeapons [ Weapon.mk "w8" "c1" (Some "u1") "m1" "s1" "A_1" 1;
                  Weapon.mk "w9" "c1" (Some "u1") "m1" "s1" "AB1" 2 ] demoWorld)
  = Thrown (ExtendedBadRequest "serialNumber" "serialNumberInUse")
      (setWeapons [ Weapon.mk "w8" "c1" (Some "u1") "m1" "s1" "A_1" 1;
                    Weapon.mk "w9" "c1" (Some "u1") "m1" "s1" "AB1" 2 ] demoWorld).
Proof. vm_compute. reflexivity. Qed.

(** Thirteenth and fourteenth of fourteen weapons. *)
Lemma getCitizenWeapons_page_and_count_witness :
  exists r,
    getCitizenWeapons "c1" alice demoCad 12 None busyWorld = Returned r busyWorld
    /\ List.length (weapons_ r) = 2
    /\ totalCount r = 14.
Proof.
  pose proof (getCitizenWeapons_page_and_count (E:=demoEnv) "c1" alice demoCad 12 None
                busyWorld) as (_ & Hfound & Hpage).
  destruct (proj1 Hfound) as [r Hr].
  { exists (Citizen.mk "c1" (Some "u1") "Ann" "Lee").
    split; [now left|]. split; reflexivity. }
  exists r. split; [exact Hr|].
  rewrite Hr in Hpage. destruct Hpage as (_ & _ & Hcount & Hlength & _).
  rewrite Hlength, Hcount. split; reflexivity.
Defined.



Lemma requestNameChange_same_name_witness :
  requestNameChange (NameChangeBody (NameChangeData.mk "c1" "Ann" "Lee")) alice
    demoWorld
  = Thrown (ExtendedBadRequest "citizenId" "nameChangeRequestNotNew") demoWorld.
Proof.
  apply (requestNameChange_same_name (E:=demoEnv)
           (NameChangeBody (NameChangeData.mk "c1" "Ann" "Lee")) alice
           (NameChangeData.mk "c1" "Ann" "Lee")
           (Citizen.mk "c1" (Some "u1") "Ann" "Lee") demoWorld);
    reflexivity.
Defined.

(** A full name is compared as one string: moving a word from the surname to
    the name does not make it new. *)
Example requestNameChange_same_full_name :
  requestNameChange (NameChangeBody (NameChangeData.mk "c1" "Ann Lee" "")) alice
    (mkWorld (mkDB [Citizen.mk "c1" (Some "u1") "Ann" "Lee "] [] [] [] []) 0 0)
  = Thrown (ExtendedBadRequest "citizenId" "nameChangeRequestNotNew")
      (mkWorld (mkDB [Citizen.mk "c1" (Some "u1") "Ann" "Lee "] [] [] [] []) 0 0).
Proof. vm_compute. reflexivity. Qed.

Lemma demoWorldPending_one_pending (userId : string) :
  OnePendingPerCitizenAndUser (prisma (demoWorldPending userId)).
Proof.
  intros cid uid. unfold pendingRequests. simpl.
  destruct (pendingOf cid uid _); simpl; lia.
Defined.

Lemma requestNameChange_one_pending_per_citizen_and_user_witness :
  requestNameChange (NameChangeBody (NameChangeData.mk "c1" "Anne" "Lee")) alice
    (demoWorldPending "u1")
  = Thrown (ExtendedBadRequest "citizenId" "alreadyPendingNameChange")
      (demoWorldPending "u1")
  /\ exists r,
       requestNameChange (NameChangeBody (NameChangeData.mk "c1" "Anne" "Lee")) alice
         demoWorld
       = Returned r (setNameChangeRequests [r] demoWorld)
       /\ NameChangeRequest.status r = PENDING.
Proof.
  split.
  - refine (proj1 (proj1 (proj2 (requestNameChange_one_pending_per_citizen_and_user
              (E:=demoEnv) (NameChangeBody (NameChangeData.mk "c1" "Anne" "Lee"))
              alice (demoWorldPending "u1") (demoWorldPending_one_pending "u1")))
            (NameChangeData.mk "c1" "Anne" "Lee")
            (Citizen.mk "c1" (Some "u1") "Ann" "Lee") eq_refl eq_refl _) _);
      discriminate.
  - exists (filedRequest demoWorld (NameChangeData.mk "c1" "Anne" "Lee") alice).
    split; [|reflexivity].
    refine (proj2 (proj1 (proj2 (requestNameChange_one_pending_per_citizen_and_user
              (E:=demoEnv) (NameChangeBody (NameChangeData.mk "c1" "Anne" "Lee"))
              alice demoWorld _))
            (NameChangeData.mk "c1" "Anne" "Lee")
            (Citizen.mk "c1" (Some "u1") "Ann" "Lee") eq_refl eq_refl _) eq_refl).
    + intros cid uid. simpl. lia.
    + discriminate.
Defined.

(** C7 as stated fails twice.  First, a pending request of the target citizen
    exists and the citizen has at most one, but it was filed under another
    user id: the call does not throw, it files a second pending request, and
    the citizen ends up with two.  Second, with a pending request of the
    user's own in place, asking for the current name throws
    [nameChangeRequestNotNew], not [alreadyPendingNameChange]. *)
Lemma requestNameChange_second_pending_request :
  (OnePendingPerCitizen (prisma (demoWorldPending "u9"))
   /\ (exists r0, In r0 (nameChangeRequests (prisma (demoWorldPending "u9")))
         /\ pendingOfCitizen "c1" r0 = true)
   /\ exists r w',
        requestNameChange (NameChangeBody (NameChangeData.mk "c1" "Anne" "Lee"))
          alice (demoWorldPending "u9")
        = Returned r w'
        /\ List.length
             (filter (pendingOfCitizen "c1") (nameChangeRequests (prisma w'))) = 2
        /\ ~ OnePendingPerCitizen (prisma w'))
  /\ requestNameChange (NameChangeBody (NameChangeData.mk "c1" "Ann" "Lee")) alice
       (demoWorldPending "u1")
     = Thrown (ExtendedBadRequest "citizenId" "nameChangeRequestNotNew")
         (demoWorldPending "u1").
Proof.
  split; [|vm_compute; reflexivity].
  split.
  { intros cid. simpl. destruct (pendingOfCitizen cid _); simpl; lia. }
  split.
  { eexists. split; [left; reflexivity|reflexivity]. }
  eexists. eexists. split; [vm_compute; reflexivity|].
  split; [vm_compute; reflexivity|].
  intros H. specialize (H "c1"). vm_compute in H. lia.
Qed.

Lemma getActiveOfficer_dispatch_header_witness :
  getActiveOfficer fromDispatch dana demoLeoWorld = Returned None demoLeoWorld
  /\ getActiveOfficer fromDispatch bob demoLeoWorld
     = Thrown (Unauthorized "Must be dispatch to use this header.") demoLeoWorld
  /\ getActiveOfficer plainRequest alice demoLeoWorld
     = Thrown (Forbidden "Invalid Permissions") demoLeoWorld.
Proof.
  split; [|split].
  - exact (proj1 (proj1 (getActiveOfficer_dispatch_header (L:=demoLeoEnv)
                           fromDispatch dana demoLeoWorld) eq_refl eq_refl)).
  - exact (proj1 (proj2 (getActiveOfficer_dispatch_header (L:=demoLeoEnv)
                           fromDispatch bob demoLeoWorld)) eq_refl eq_refl).
  - exact (proj2 (proj2 (getActiveOfficer_dispatch_header (L:=demoLeoEnv)
                           plainRequest alice demoLeoWorld)) eq_refl eq_refl).
Defined.

Lemma getActiveOfficer_solo_officer_witness :
  isFromDispatch plainRequest = false
  /\ In officerFinn (officers demoLeoWorld)
  /\ Officer.userId officerFinn = Some (User.id finn)
  /\ (exists st, Officer.status officerFinn = Some st
        /\ StatusValue.shouldDo st <> "SET_OFF_DUTY")
  /\ (forall cutoff, unitsInactivityFilter demoLeoWorld = Some cutoff ->
        ~ exists t, Officer.lastStatusChangeTimestamp officerFinn = Some t
                    /\ (t <= cutoff)%Z).
Proof.
  apply (getActiveOfficer_solo_officer (L:=demoLeoEnv) plainRequest finn demoLeoWorld
           (afterLookups demoLeoWorld) officerFinn).
  vm_compute. reflexivity.
Defined.

(** An officer who went off duty, or whose last status change is older than
    the timeout, is not found. *)
Example getActiveOfficer_off_duty :
  getActiveOfficer plainRequest finn
    (mkLeoWorld [] [Officer.mk "o3" (Some "u5") (Some offDuty) (Some 1000%Z)]
       [Some 5%Z] [] [] 100000%Z)
  = Thrown (BadRequest "noActiveOfficer")
      (mkLeoWorld [] [Officer.mk "o3" (Some "u5") (Some offDuty) (Some 1000%Z)]
         [Some 5%Z] []
         [combinedLeoUnit_findFirst; cad_findFirst; officer_findFirst] 100000%Z).
Proof. vm_compute. reflexivity. Qed.

Example getActiveOfficer_inactive :
  match getActiveOfficer plainRequest finn
          (mkLeoWorld [] [officerFinn] [Some 5%Z] [] [] 400000%Z) with
  | Thrown (BadRequest "noActiveOfficer") _ => True
  | _ => False
  end.
Proof. vm_compute. exact I. Qed.

Lemma getActiveOfficer_precedence_witness :
  (exists u',
      getActiveOfficer plainRequest bob demoLeoWorld
        = Returned (Some (IsCombinedUnit u')) (afterLookups demoLeoWorld)
      /\ In u' (combinedLeoUnits demoLeoWorld)
      /\ combinedUnitWhere (User.id bob) u' = true)
  /\ officerWhere (User.id bob) (unitsInactivityFilter demoLeoWorld) officerBob = true
  /\ (exists o',
      getActiveOfficer plainRequest finn demoLeoWorld
        = Returned (Some (IsOfficer o')) (afterLookups demoLeoWorld)
      /\ In o' (officers demoLeoWorld)
      /\ officerWhere (User.id finn) (unitsInactivityFilter demoLeoWorld) o' = true).
Proof.
  split; [|split].
  - apply (proj1 (proj2 (getActiveOfficer_precedence (L:=demoLeoEnv) plainRequest bob
                           demoLeoWorld)) eq_refl eq_refl demoUnit).
    + now left.
    + reflexivity.
  - reflexivity.
  - refine (proj2 (proj2 (getActiveOfficer_precedence (L:=demoLeoEnv) plainRequest finn
                            demoLeoWorld)) eq_refl eq_refl _ officerFinn _ eq_refl).
    + intros u [<-|[]]. reflexivity.
    + right. right. now left.
Defined.

(** C4 as stated fails: without the dispatch header, a user who is an officer
    of a combined unit on duty and has an active officer record of her own,
    but lacks the default LEO permissions, gets [Forbidden], not the combined
    unit. *)
Lemma getActiveOfficer_without_permissions :
  isFromDispatch plainRequest = false
  /\ In demoUnit (combinedLeoUnits demoLeoWorld)
  /\ combinedUnitWhere (User.id eve) demoUnit = true
  /\ In officerEve (officers demoLeoWorld)
  /\ officerWhere (User.id eve) (unitsInactivityFilter demoLeoWorld) officerEve = true
  /\ getActiveOfficer plainRequest eve demoLeoWorld
     = Thrown (Forbidden "Invalid Permissions") demoLeoWorld
  /\ ~ (exists u w',
         getActiveOfficer plainRequest eve demoLeoWorld
         = Returned (Some (IsCombinedUnit u)) w').
Proof.
  split; [reflexivity|]. split; [now left|]. split; [reflexivity|].
  split; [right; now left|]. split; [reflexivity|].
  split; [vm_compute; reflexivity|].
  intros (u & w' & H). vm_compute in H. discriminate H.
Qed.


(* ------------------------------------------------------------------------- *)
(** * Further properties of the controllers *)

(** ** More on the weapon endpoints *)

(** What a settled call of the allocator says about its result. *)
Ltac allocator_facts :=
  match goal with
  | H : generateOrValidateSerialNumber ?f ?sn ?wp ?w = ?o |- _ =>
      let Hs := fresh "Hsettled" in
      pose proof (generateOrValidateSerialNumber_settled f sn wp w) as Hs;
      rewrite H in Hs; cbn beta iota in Hs;
      lazymatch o with
      | Returned _ _ =>
          let Hdb := fresh "Hdb" in
          let Hnow := fresh "Hnow" in
          let Hfree := fresh "Hfree" in
          let Hexp := fresh "Hexp" in
          destruct Hs as (Hdb & Hnow & Hfree & Hexp)
      | Thrown _ _ =>
          let s := fresh "s" in
          let Hsn := fresh "Hsn" in
          let Htruthy := fresh "Htruthy" in
          let Htaken := fresh "Htaken" in
          destruct Hs as (-> & -> & s & Hsn & Htruthy & Htaken)
      | Pending => idtac
      end
  end.

Section MoreOnWeapons.
Context {E : Env}.

Lemma find_citizen_id (cid : string) (cs : list Citizen.t) (c : Citizen.t) :
  find (fun r => Citizen.id r =? cid) cs = Some c -> Citizen.id c = cid.
Proof. intros H. apply find_some in H as [_ H]. now apply String.eqb_eq. Qed.

(** X1: a registration that returns has created exactly one row, placed
    after the rows that were there, which are untouched.  The row has an id
    no weapon had, belongs to the citizen named in the body and to the calling
    user, carries the body's registration status, the time of the call, a
    model that exists in the table of weapon values, and as serial number the
    body's non-empty one or else one of the draws of [generateString(10)]. *)
Theorem registerWeapon_created_weapon (fuel : nat) (user : User.t) (cad : Cad)
    (body : Body) (w : World) (r : Weapon.t) (w' : World) :
  registerWeapon fuel user cad body w = Returned r w' ->
  exists data citizen,
    validateSchema WEAPON_SCHEMA body = inr data
    /\ find (fun c => Citizen.id c =? WeaponData.citizenId data) (citizens (prisma w))
       = Some citizen
    /\ weapons (prisma w') = weapons (prisma w) ++ [r]
    /\ ~ In (Weapon.id r) (map Weapon.id (weapons (prisma w)))
    /\ Weapon.citizenId r = WeaponData.citizenId data
    /\ Weapon.userId r = orNull (Some (User.id user))
    /\ Weapon.registrationStatusId r = WeaponData.registrationStatus data
    /\ Weapon.createdAt r = now w
    /\ (exists wv, In wv (weaponValues (prisma w'))
          /\ WeaponValue.id wv = Weapon.modelId r)
    /\ match orNull (WeaponData.serialNumber data) with
       | Some s => Weapon.serialNumber r = s
       | None =>
           exists k, k <= fuel
             /\ Weapon.serialNumber r
                = generateString SERIAL_NUMBER_LENGTH (seed w + k)
       end.
Proof.
  unfold registerWeapon. unfold_monad. split_cases; try discriminate.
  all: intros [= <- <-]; allocator_facts.
  all: match goal with
       | H : generateOrValidateSerialNumber _ _ _ _ = _ |- _ =>
           apply generateOrValidateSerialNumber_seed in H
       end.
  all: match goal with
       | H : find (fun r => Citizen.id r =? _) _ = Some ?c |- _ =>
           pose proof (find_citizen_id _ _ _ H) as Hcid
       end.
  all: do 2 eexists; split; [reflexivity|]; split; [eassumption|].
  all: unfold setWeapons; cbn [prisma weapons weaponValues Weapon.id Weapon.citizenId
         Weapon.userId Weapon.registrationStatusId Weapon.createdAt Weapon.modelId
         Weapon.serialNumber now].
  all: rewrite ?Hdb, ?Hnow; cbn [prisma weapons weaponValues setWeaponValues now].
  all: split; [reflexivity|]; split; [apply cuid_fresh|]; split; [exact Hcid|].
  all: do 3 (split; [reflexivity|]).
  all: split;
    [ match goal with
      | H : find _ (weaponValues _) = Some ?wv |- _ =>
          apply find_some in H as [Hin Hid]; exists wv;
          split; [exact Hin | now apply String.eqb_eq in Hid]
      end
    | match goal with
      | H : match orNull ?x with _ => _ end |- _ =>
          destruct (orNull x);
          [ destruct H as [-> _]; reflexivity
          | destruct H as (k & Hk & -> & _); exists k; split; [exact Hk|reflexivity] ]
      end ].
Qed.

(** X2: with custom text-field values enabled, a registration that gets past
    the body validation and the access check adds a [Value] row and a
    [WeaponValue] row for the body's model, whatever happens next: the two
    rows are there also when the call then throws, for instance because the
    serial number is in use. *)
Theorem registerWeapon_custom_value_is_kept (fuel : nat) (user : User.t) (cad : Cad)
    (body : Body) (data : WeaponData.t) (w w' : World) :
  validateSchema WEAPON_SCHEMA body = inr data ->
  isFeatureEnabled cad CUSTOM_TEXTFIELD_VALUES false = true ->
  accessGranted user cad
    (citizenUserId
       (find (fun c => Citizen.id c =? WeaponData.citizenId data)
          (citizens (prisma w)))) ->
  (shouldCheckCitizenUserId cad user = false ->
   find (fun c => Citizen.id c =? WeaponData.citizenId data) (citizens (prisma w))
     <> None) ->
  finalState (registerWeapon fuel user cad body w) = Some w' ->
  exists v wv,
    values (prisma w') = values (prisma w) ++ [v]
    /\ weaponValues (prisma w') = weaponValues (prisma w) ++ [wv]
    /\ Value.value v = WeaponData.model data
    /\ Value.type v = "WEAPON"
    /\ Value.isDefault v = false
    /\ WeaponValue.valueId wv = Value.id v
    /\ ~ In (Value.id v) (map Value.id (values (prisma w)))
    /\ ~ In (WeaponValue.id wv) (map WeaponValue.id (weaponValues (prisma w))).
Proof.
  unfold accessGranted. intros Hvalid Hcustom Haccess Hfound.
  unfold registerWeapon. unfold_monad. rewrite Hvalid, Hcustom. cbv beta iota.
  split_cases; cbn [finalState]; intros [= <-]; try allocator_facts.
  all: try solve [specialize (Haccess eq_refl); discriminate].
  all: try solve [specialize (Hfound eq_refl); congruence].
  all: unfold setWeapons; cbn [prisma values weaponValues]; rewrite ?Hdb;
       cbn [prisma values weaponValues setWeaponValues].
  all: do 2 eexists; do 6 (split; [reflexivity|]); split; apply cuid_fresh.
Qed.

(** X3: what the weapon endpoints never touch.  None of them changes the
    citizens, the name-change requests or the clock.  [updateWeapon] and
    [deleteWeapon] never use the random source; [deleteWeapon] changes nothing
    but the weapon table; with custom values disabled, [registerWeapon] and
    [updateWeapon] leave the tables of values alone. *)
Theorem weapon_endpoints_frame (w : World) :
  (forall fuel user cad body w',
      finalState (registerWeapon fuel user cad body w) = Some w' ->
      citizens (prisma w') = citizens (prisma w)
      /\ nameChangeRequests (prisma w') = nameChangeRequests (prisma w)
      /\ now w' = now w
      /\ (isFeatureEnabled cad CUSTOM_TEXTFIELD_VALUES false = false ->
          weaponValues (prisma w') = weaponValues (prisma w)
          /\ values (prisma w') = values (prisma w)))
  /\ (forall fuel user cad weaponId body w',
      finalState (updateWeapon fuel user cad weaponId body w) = Some w' ->
      citizens (prisma w') = citizens (prisma w)
      /\ nameChangeRequests (prisma w') = nameChangeRequests (prisma w)
      /\ now w' = now w
      /\ seed w' = seed w
      /\ (isFeatureEnabled cad CUSTOM_TEXTFIELD_VALUES false = false ->
          weaponValues (prisma w') = weaponValues (prisma w)
          /\ values (prisma w') = values (prisma w)))
  /\ (forall user cad weaponId w',
      finalState (deleteWeapon user cad weaponId w) = Some w' ->
      w' = setWeapons (weapons (prisma w')) w).
Proof.
  split; [|split].
  - intros fuel user cad body w'.
    unfold registerWeapon. unfold_monad.
    split_cases; cbn [finalState]; try discriminate; intros [= <-];
      try allocator_facts.
    all: unfold setWeapons; cbn [prisma citizens nameChangeRequests weaponValues
           values now]; rewrite ?Hdb, ?Hnow;
         cbn [prisma citizens nameChangeRequests weaponValues values now
              setWeaponValues].
    all: repeat (split; [reflexivity|]).
    all: solve [ congruence | intros _; split; reflexivity ].
  - intros fuel user cad weaponId body w'.
    unfold updateWeapon. unfold_monad.
    split_cases; cbn [finalState]; try discriminate; intros [= <-].
    all: try match goal with
         | H : generateOrValidateSerialNumber _ (WeaponData.serialNumber ?d) _ _
               = Returned _ _ |- _ =>
             pose proof (generateOrValidateSerialNumber_seed _ _ _ _ _ _ H) as Hseed;
             destruct (WeaponData.serialNumber d); [|discriminate];
             destruct Hseed as [-> ->]
         end.
    all: try allocator_facts.
    all: unfold setWeapons; cbn [prisma citizens nameChangeRequests weaponValues
           values now seed setWeaponValues].
    all: repeat (split; [reflexivity|]).
    all: solve [ congruence | intros _; split; reflexivity ].
  - intros user cad weaponId w'.
    unfold deleteWeapon. unfold_monad.
    split_cases; cbn [finalState]; try discriminate; intros [= <-].
    all: unfold setWeapons; cbn [prisma weapons]; destruct w as [[? ? ? ? ?] ? ?];
         reflexivity.
Qed.

End MoreOnWeapons.

(* ------------------------------------------------------------------------- *)
(** ** Deleting, updating and registering again *)

Section WeaponLifeCycle.
Context {E : Env}.

Lemma filter_keeps_all {R} (keep : R -> bool) (rows : list R) :
  (forall y, In y rows -> keep y = true) -> filter keep rows = rows.
Proof.
  intros H. apply forallb_filter_id, forallb_forall. exact H.
Qed.

Lemma find_snoc_first {R} (where_ : R -> bool) (rows : list R) (a : R) :
  (forall y, In y rows -> where_ y = false) -> where_ a = true ->
  find where_ (rows ++ [a]) = Some a.
Proof.
  intros Hrows Ha. induction rows as [|y t IH]; cbn [app find].
  - now rewrite Ha.
  - rewrite (Hrows y (or_introl eq_refl)). apply IH. intros z Hz. apply Hrows.
    now right.
Qed.

(** Removing the rows with a given id from a table keyed by id takes out the
    row [find] returns and nothing else. *)
Lemma filter_out_key (wid : string) (ws : list Weapon.t) (x : Weapon.t) :
  NoDup (map Weapon.id ws) ->
  find (fun y => Weapon.id y =? wid) ws = Some x ->
  exists before after,
    ws = before ++ x :: after
    /\ filter (fun y => negb (Weapon.id y =? wid)) ws = before ++ after.
Proof.
  induction ws as [|a t IH]; [discriminate|]. cbn [map find filter].
  intros Hnd Hfind. inversion Hnd as [|? ? Hnotin Hnd']. subst.
  destruct (String.eqb_spec (Weapon.id a) wid) as [Ha|Ha]; cbn [negb].
  - injection Hfind as <-. exists [], t. split; [reflexivity|]. cbn [app].
    apply filter_keeps_all. intros y Hy. apply negb_true_iff, String.eqb_neq.
    intros Heq. apply Hnotin. rewrite Ha, <- Heq. now apply in_map.
  - destruct (IH Hnd' Hfind) as (before & after & -> & Hfilter).
    exists (a :: before), after. split; [reflexivity|]. cbn [app]. now rewrite Hfilter.
Qed.

(** X4: on a weapon table keyed by [id], a [deleteWeapon] that returns has
    returned [true], the caller passed the access check for the weapon, and
    the weapon table is the old one with exactly the row of that id taken
    out; the rows before and after it keep their places. *)
Theorem deleteWeapon_removes_the_weapon (user : User.t) (cad : Cad) (weaponId : string)
    (w w' : World) (b : bool) :
  WeaponIdsUnique (prisma w) ->
  deleteWeapon user cad weaponId w = Returned b w' ->
  b = true
  /\ exists before x after,
       weapons (prisma w) = before ++ x :: after
       /\ Weapon.id x = weaponId
       /\ accessGranted user cad (Weapon.userId x)
       /\ weapons (prisma w') = before ++ after
       /\ forall y, In y (weapons (prisma w')) -> Weapon.id y <> weaponId.
Proof.
  unfold WeaponIdsUnique, accessGranted. intros Hids.
  unfold deleteWeapon. unfold_monad. split_cases; try discriminate.
  all: intros [= <- <-]; split; [reflexivity|].
  all: repeat match goal with
       | H : find (fun r => String.eqb (Weapon.id r) ?i) _ = Some ?x |- _ =>
           lazymatch goal with
           | _ : Weapon.id x = i |- _ => fail
           | _ => pose proof (find_id_eq _ _ _ H)
           end
       end.
  all: repeat match goal with H : Weapon.id _ = _ |- _ => rewrite H in * end.
  all: repeat match goal with
       | H1 : find ?f ?l = Some ?x, H2 : find ?f ?l = Some ?y |- _ =>
           rewrite H1 in H2; injection H2 as <-
       end.
  all: match goal with
       | H : find (fun r => Weapon.id r =? _) _ = Some ?x |- _ =>
           destruct (filter_out_key _ _ _ Hids H) as (before & after & Hsplit & Hrest);
           exists before, x, after
       end.
  all: unfold setWeapons; cbn [prisma weapons]; rewrite <- Hrest.
  all: split; [exact Hsplit|]; split; [assumption|]; split;
       [first [ intros _; cbn [weaponUserId] in *;
                match goal with
                | H : canManageInvariant _ _ _ = inr ?u |- _ => destruct u; exact H
                end
              | congruence ]|];
       split; [reflexivity|].
  all: intros y Hy; apply filter_In in Hy as [_ Hy];
       now apply negb_true_iff, String.eqb_neq in Hy.
Qed.

(** What a registration that returns has gone through. *)
Lemma registerWeapon_guards_passed (fuel : nat) (user : User.t) (cad : Cad)
    (body : Body) (w : World) (r : Weapon.t) (w' : World) :
  registerWeapon fuel user cad body w = Returned r w' ->
  exists data citizen,
    validateSchema WEAPON_SCHEMA body = inr data
    /\ find (fun c => Citizen.id c =? WeaponData.citizenId data) (citizens (prisma w))
         = Some citizen
    /\ accessGranted user cad (Citizen.userId citizen)
    /\ (isFeatureEnabled cad CUSTOM_TEXTFIELD_VALUES false = false ->
        find (fun wv => WeaponValue.id wv =? WeaponData.model data)
          (weaponValues (prisma w)) <> None)
    /\ citizens (prisma w') = citizens (prisma w)
    /\ (isFeatureEnabled cad CUSTOM_TEXTFIELD_VALUES false = false ->
        weaponValues (prisma w') = weaponValues (prisma w))
    /\ Weapon.userId r = orNull (Some (User.id user))
    /\ In r (weapons (prisma w'))
    /\ Weapon.serialNumber r
       = match orNull (WeaponData.serialNumber data) with
         | Some s => s
         | None => Weapon.serialNumber r
         end.
Proof.
  unfold accessGranted, registerWeapon. unfold_monad. split_cases; try discriminate.
  all: intros [= <- <-]; allocator_facts.
  all: do 2 eexists; split; [reflexivity|]; split; [eassumption|].
  all: unfold setWeapons;
       cbn [prisma weapons citizens weaponValues Weapon.userId Weapon.serialNumber
            citizenUserId] in *.
  all: rewrite ?Hdb; cbn [prisma citizens weaponValues setWeaponValues].
  all: split; [first [ intros _;
                       match goal with
                       | H : canManageInvariant _ _ _ = inr ?u |- _ =>
                           destruct u; exact H
                       end
                     | congruence ]|].
  all: split; [congruence|].
  all: split; [reflexivity|].
  all: split; [first [ intros _; reflexivity | congruence ]|].
  all: split; [reflexivity|].
  all: split; [apply in_or_app; right; now left|].
  all: match goal with
       | |- context [orNull ?x] =>
           destruct (orNull x) as [s0|] eqn:Hor; [|reflexivity];
           now destruct (Hexp s0 eq_refl)
       end.
Qed.

(** X5: a weapon that has just been registered can be deleted again by
    anyone who passes the access check for it, and the weapon table is then
    back to what it was before the registration. *)
Theorem registerWeapon_then_deleteWeapon (fuel : nat) (user user' : User.t)
    (cad cad' : Cad) (body : Body) (w w1 : World) (r : Weapon.t) :
  registerWeapon fuel user cad body w = Returned r w1 ->
  accessGranted user' cad' (Weapon.userId r) ->
  exists w2,
    deleteWeapon user' cad' (Weapon.id r) w1 = Returned true w2
    /\ weapons (prisma w2) = weapons (prisma w).
Proof.
  unfold accessGranted. intros Hreg Haccess.
  pose proof (registerWeapon_cases fuel user cad body w) as H.
  rewrite Hreg in H. destruct H as (Hws & _ & Hid & _).
  assert (forall y, In y (weapons (prisma w)) ->
            (Weapon.id y =? Weapon.id r) = false) as Hfresh.
  { intros y Hy. apply String.eqb_neq. intros Heq.
    apply (cuid_fresh (map Weapon.id (weapons (prisma w)))).
    rewrite <- Hid, <- Heq. now apply in_map. }
  assert (find (fun y => Weapon.id y =? Weapon.id r) (weapons (prisma w1)) = Some r)
    as Hfind.
  { rewrite Hws. apply find_snoc_first; [exact Hfresh | apply String.eqb_refl]. }
  assert (filter (fun y => negb (Weapon.id y =? Weapon.id r)) (weapons (prisma w1))
          = weapons (prisma w)) as Hfilter.
  { rewrite Hws, filter_app. cbn [filter]. rewrite String.eqb_refl. cbn [negb].
    rewrite app_nil_r. apply filter_keeps_all. intros y Hy.
    now rewrite (Hfresh y Hy). }
  unfold deleteWeapon. unfold_monad. rewrite Hfind. cbn [weaponUserId].
  destruct (shouldCheckCitizenUserId cad' user') eqn:Hcheck.
  - rewrite (Haccess eq_refl). cbv beta iota. rewrite Hfind.
    eexists. split; [reflexivity|]. exact Hfilter.
  - cbv beta iota. rewrite Hfind. eexists. split; [reflexivity|]. exact Hfilter.
Qed.

Lemma generateOrValidateSerialNumber_budget (fuel : nat) (s : string)
    (weapon : option string) (w : World) :
  truthy (Some s) = true ->
  generateOrValidateSerialNumber fuel (Some s) weapon w
  = generateOrValidateSerialNumber 0 (Some s) weapon w.
Proof.
  intros Ht. now rewrite !generateOrValidateSerialNumber_explicit.
Qed.

(** X6: [updateWeapon] never retries: it asks the allocator only for a
    non-empty serial number of the body, which is answered by one lookup.  So
    its outcome does not depend on the budget of retries, and it always
    settles. *)
Theorem updateWeapon_never_retries (fuel : nat) (user : User.t) (cad : Cad)
    (weaponId : string) (body : Body) (w : World) :
  updateWeapon fuel user cad weaponId body w = updateWeapon 0 user cad weaponId body w
  /\ updateWeapon fuel user cad weaponId body w <> Pending.
Proof.
  split.
  - unfold updateWeapon. unfold_monad.
    destruct (validateSchema WEAPON_SCHEMA body) as [e|data]; [reflexivity|].
    destruct (WeaponData.serialNumber data) as [s|]; [|reflexivity].
    destruct (truthy (Some s)) eqn:Ht; [|reflexivity].
    repeat first
      [ rewrite (generateOrValidateSerialNumber_budget fuel s _ _ Ht)
      | reflexivity
      | destruct_innermost; cbv beta iota ].
  - pose proof (updateWeapon_cases fuel user cad weaponId body w) as H.
    intros Heq. now rewrite Heq in H.
Qed.


(** X8: a registration with a plain serial number of its own cannot be
    repeated: after it has returned, the same request is turned down with
    [serialNumber: serialNumberInUse], and no second weapon is created.  (A
    serial number that the lookup reads as a pattern need not match
    itself.) *)
Theorem registerWeapon_twice (fuel fuel' : nat) (user : User.t) (cad : Cad)
    (body : Body) (data : WeaponData.t) (s : string) (w w1 : World) (r : Weapon.t) :
  validateSchema WEAPON_SCHEMA body = inr data ->
  WeaponData.serialNumber data = Some s ->
  s <> "" ->
  plain s = true ->
  registerWeapon fuel user cad body w = Returned r w1 ->
  exists w2,
    registerWeapon fuel' user cad body w1
      = Thrown (ExtendedBadRequest "serialNumber" "serialNumberInUse") w2
    /\ weapons (prisma w2) = weapons (prisma w1).
Proof.
  intros Hvalid Hs Hnonempty Hplain Hreg.
  assert (truthy (Some s) = true) as Htruthy.
  { simpl. apply negb_true_iff. now apply String.eqb_neq. }
  destruct (registerWeapon_guards_passed _ _ _ _ _ _ _ Hreg)
    as (data' & c & Hv & Hc & Haccess & Hmodel & Hcs & Hvals & _ & Hin & Hsn).
  assert (data' = data) as -> by congruence.
  assert (orNull (WeaponData.serialNumber data) = Some s) as Hor.
  { unfold orNull. now rewrite Hs, Htruthy. }
  rewrite Hor in Hsn.
  assert (taken w1 None s = true) as Htaken.
  { apply taken_true. exists r. split; [exact Hin|]. split; [|discriminate].
    rewrite Hsn, (equalsInsensitive_plain _ _ Hplain).
    now apply sameUpToCase_spec. }
  pose proof (registerWeapon_cases fuel' user cad body w1) as H.
  destruct (registerWeapon fuel' user cad body w1) as [r2 w2|e w2|].
  - exfalso. destruct H as (_ & Hfree & _ & data' & Hv' & Hs').
    assert (data' = data) as -> by congruence.
    rewrite (Hs' s Hor) in Hfree. congruence.
  - destruct H as [Hws Hwhy]. exists w2. split; [|exact Hws]. f_equal.
    destruct Hwhy as [Hv'|(data' & Hv' & Hwhy)]; [congruence|].
    assert (data' = data) as -> by congruence.
    cbv zeta in Hwhy. rewrite Hcs, Hc in Hwhy. simpl in Hwhy.
    destruct Hwhy as
      [[Hk He]|[(_ & [=] & _)|[(Hf & Hnone & _)|[([=] & _)
        |[(s' & _ & _ & He)|(_ & Hfree & _)]]]]].
    + unfold accessGranted in Haccess. rewrite (Haccess Hk) in He. discriminate.
    + exfalso. rewrite (Hvals Hf) in Hnone. exact (Hmodel Hf Hnone).
    + exact He.
    + rewrite (Hfree s Hor) in Htaken. discriminate.
  - exfalso. specialize (H data Hvalid). rewrite Hs, Htruthy in H. discriminate.
Qed.

(** X9: the allocator tells "no serial number" from "empty serial number"
    in one place ([??]) and not in the other ([if (_serialNumber)]).  Called
    with the empty string, it returns the empty string when the lookup finds
    no weapon; when the lookup finds one it neither throws nor draws a new
    string but calls itself with the same arguments, so it never settles,
    whatever the budget. *)
Theorem generateOrValidateSerialNumber_empty_string (fuel : nat)
    (weapon : option string) (w : World) :
  generateOrValidateSerialNumber fuel (Some "") weapon w
  = if taken w weapon "" then Pending else Returned "" w.
Proof.
  induction fuel as [|fuel IH]; rewrite generateOrValidateSerialNumber_eq; cbv zeta;
    cbn [truthy String.eqb negb]; destruct (taken w weapon "") eqn:Ht;
    first [ reflexivity | exact IH ].
Qed.

(** X10: the endpoints never hand the empty string to the allocator: a body
    whose serial number is the empty string is treated by [registerWeapon]
    and by [updateWeapon] exactly as a body without a serial number. *)
Theorem empty_serial_number_is_none (fuel : nat) (user : User.t) (cad : Cad)
    (weaponId : string) (body body' : Body) (data data' : WeaponData.t) (w : World) :
  validateSchema WEAPON_SCHEMA body = inr data ->
  validateSchema WEAPON_SCHEMA body' = inr data' ->
  WeaponData.citizenId data' = WeaponData.citizenId data ->
  WeaponData.model data' = WeaponData.model data ->
  WeaponData.registrationStatus data' = WeaponData.registrationStatus data ->
  WeaponData.serialNumber data = Some "" ->
  WeaponData.serialNumber data' = None ->
  registerWeapon fuel user cad body w = registerWeapon fuel user cad body' w
  /\ updateWeapon fuel user cad weaponId body w
     = updateWeapon fuel user cad weaponId body' w.
Proof.
  intros Hv Hv' Hc Hm Hr Hs Hs'.
  unfold registerWeapon, updateWeapon. unfold_monad.
  rewrite Hv, Hv', Hc, Hm, Hr, Hs, Hs'. split; reflexivity.
Qed.


End WeaponLifeCycle.

(* ------------------------------------------------------------------------- *)
(** ** The pages of [getCitizenWeapons] *)

Section Ordering.
Context {R : Type} (key : R -> Z).

Lemma insertByDesc_Permutation (x : R) (l : list R) :
  Permutation (insertByDesc key x l) (x :: l).
Proof.
  induction l as [|y t IH]; cbn [insertByDesc]; [reflexivity|].
  destruct (key y <? key x)%Z; [reflexivity|].
  rewrite IH. apply perm_swap.
Qed.

Lemma orderByDesc_Permutation (l : list R) : Permutation (orderByDesc key l) l.
Proof.
  unfold orderByDesc. induction l as [|x t IH]; cbn [fold_right]; [reflexivity|].
  rewrite insertByDesc_Permutation. now apply perm_skip.
Qed.

Lemma insertByDesc_descending (x : R) (l : list R) :
  descending key l -> descending key (insertByDesc key x l).
Proof.
  unfold descending. induction l as [|y t IH]; cbn [insertByDesc]; intros Hl.
  - constructor; constructor.
  - apply StronglySorted_inv in Hl as [Ht Hy].
    destruct (Z.ltb_spec (key y) (key x)) as [Hlt|Hge].
    + constructor; [now constructor|]. constructor; [lia|].
      eapply Forall_impl; [|exact Hy]. cbv beta. intros z Hz. lia.
    + constructor; [now apply IH|].
      eapply Permutation_Forall; [symmetry; apply insertByDesc_Permutation|].
      constructor; [lia|exact Hy].
Qed.

Lemma orderByDesc_descending (l : list R) : descending key (orderByDesc key l).
Proof.
  unfold orderByDesc. induction l as [|x t IH]; cbn [fold_right].
  - constructor.
  - now apply insertByDesc_descending.
Qed.

Lemma descending_skipn (n : nat) (l : list R) :
  descending key l -> descending key (skipn n l).
Proof.
  unfold descending. revert l. induction n as [|n IH]; intros l Hl; [exact Hl|].
  destruct l as [|a t]; [exact Hl|]. cbn [skipn]. apply IH.
  now apply StronglySorted_inv in Hl.
Qed.

Lemma descending_firstn (n : nat) (l : list R) :
  descending key l -> descending key (firstn n l).
Proof.
  unfold descending. revert l. induction n as [|n IH]; intros l Hl; [constructor|].
  destruct l as [|a t]; [constructor|]. cbn [firstn].
  apply StronglySorted_inv in Hl as [Ht Ha]. constructor; [now apply IH|].
  apply Forall_forall. intros z Hz. apply In_firstn in Hz.
  exact (proj1 (Forall_forall _ _) Ha z Hz).
Qed.

(** With distinct keys there is one descending arrangement only. *)
Lemma descending_unique (l1 l2 : list R) :
  NoDup (map key l1) -> Permutation l1 l2 ->
  descending key l1 -> descending key l2 -> l1 = l2.
Proof.
  unfold descending. revert l2. induction l1 as [|a t1 IH]; intros l2 Hkeys Hperm H1 H2.
  - apply Permutation_nil in Hperm. now subst.
  - destruct l2 as [|b t2].
    { symmetry in Hperm. now apply Permutation_nil_cons in Hperm. }
    apply StronglySorted_inv in H1 as [H1 Ha].
    apply StronglySorted_inv in H2 as [H2 Hb].
    assert (key b <= key a)%Z as Hba.
    { assert (In b (a :: t1)) as [->|Hin]
        by (apply (Permutation_in _ (Permutation_sym Hperm)); now left); [lia|].
      exact (proj1 (Forall_forall _ _) Ha b Hin). }
    assert (key a <= key b)%Z as Hab.
    { assert (In a (b :: t2)) as [->|Hin]
        by (apply (Permutation_in _ Hperm); now left); [lia|].
      exact (proj1 (Forall_forall _ _) Hb a Hin). }
    assert (a = b) as <-.
    { apply (NoDup_map_eq key (a :: t1)); [exact Hkeys|now left| |lia].
      apply (Permutation_in _ (Permutation_sym Hperm)). now left. }
    f_equal. apply Permutation_cons_inv in Hperm. inversion Hkeys; subst.
    now apply IH.
Qed.

End Ordering.

Section Pages.
Context {E : Env}.

Lemma orderByCreatedAtDesc_eq (l : list Weapon.t) :
  orderByCreatedAtDesc l = orderByDesc Weapon.createdAt l.
Proof.
  unfold orderByCreatedAtDesc, orderByDesc. induction l as [|x t IH];
    cbn [fold_right]; [reflexivity|].
  rewrite IH. generalize (fold_right (insertByDesc Weapon.createdAt) [] t).
  intros l. induction l as [|y u IHu]; cbn [insertDesc insertByDesc];
    [reflexivity|]. now rewrite IHu.
Qed.

(** Consecutive windows of a list make up its front. *)
Lemma concat_windows {A} (size m : nat) (l : list A) :
  List.concat (map (fun k => firstn size (skipn (k * size) l)) (seq 0 m))
  = firstn (m * size) l.
Proof.
  induction m as [|m IH]; [reflexivity|].
  rewrite seq_S, map_app, concat_app, IH. cbn [map List.concat plus].
  rewrite app_nil_r. rewrite <- (firstn_skipn (m * size) (firstn (S m * size) l)).
  f_equal.
  - rewrite firstn_firstn. f_equal. lia.
  - rewrite firstn_skipn_comm. do 2 f_equal. lia.
Qed.

(** The page a found citizen is shown. *)
Lemma getCitizenWeapons_found (citizenId : string) (user : User.t) (cad : Cad)
    (skip : nat) (query : option string) (w : World) (r : GetCitizenWeaponsData)
    (w' : World) :
  getCitizenWeapons citizenId user cad skip query w = Returned r w' ->
  let selection :=
    filter (citizenWeaponsWhere (prisma w) citizenId query) (weapons (prisma w)) in
  totalCount r = List.length selection
  /\ (forall skip',
        pageAt citizenId user cad query w skip'
        = firstn MAX_ITEMS_PER_TABLE_PAGE
            (skipn skip' (orderByDesc Weapon.createdAt selection)))
  /\ weapons_ r = pageAt citizenId user cad query w skip
  /\ exists c, In c (citizens (prisma w))
       /\ Citizen.id c = citizenId
       /\ (shouldCheckCitizenUserId cad user = true ->
           Citizen.userId c = Some (User.id user)).
Proof.
  unfold pageAt, getCitizenWeapons. unfold_monad.
  destruct (find _ (citizens (prisma w))) as [c|] eqn:Hc; [|discriminate].
  cbv beta iota zeta. intros [= <- <-]. cbn [totalCount weapons_].
  rewrite orderByCreatedAtDesc_eq.
  split; [reflexivity|]. split; [reflexivity|]. split; [reflexivity|].
  exists c. apply find_some in Hc as [Hin Hc].
  apply andb_true_iff in Hc as [Hid Hu]. apply String.eqb_eq in Hid.
  split; [exact Hin|]. split; [exact Hid|]. intros Hcheck. rewrite Hcheck in Hu.
  destruct (Citizen.userId c) as [u|]; [|discriminate]. cbn [option_eqb] in Hu.
  apply String.eqb_eq in Hu. now subst.
Qed.

(** X12: the page [getCitizenWeapons] returns is ordered by [createdAt],
    newest first, whatever [skip] is. *)
Theorem getCitizenWeapons_newest_first (citizenId : string) (user : User.t)
    (cad : Cad) (skip : nat) (query : option string) (w w' : World)
    (r : GetCitizenWeaponsData) :
  getCitizenWeapons citizenId user cad skip query w = Returned r w' ->
  descending Weapon.createdAt (weapons_ r).
Proof.
  intros Hget. destruct (getCitizenWeapons_found _ _ _ _ _ _ _ _ Hget)
    as (_ & Hpage & -> & _).
  rewrite Hpage. apply descending_firstn, descending_skipn, orderByDesc_descending.
Qed.

(** X13: paging loses nothing and repeats nothing, when no two selected
    weapons have the same [createdAt].  (Rows of equal date may come in any
    order, and each page is a query of its own.)  For a citizen the call
    finds, the pages at [skip = 0, 12, 24, ...], one after the other, are then
    the selection in the one order that puts the newest first, as soon as
    there are enough pages for [totalCount] weapons. *)
Theorem getCitizenWeapons_pages_tile (citizenId : string) (user : User.t)
    (cad : Cad) (query : option string) (w w0 : World) (r0 : GetCitizenWeaponsData)
    (m : nat) :
  getCitizenWeapons citizenId user cad 0 query w = Returned r0 w0 ->
  totalCount r0 <= m * MAX_ITEMS_PER_TABLE_PAGE ->
  NoDup (map Weapon.createdAt
           (filter (citizenWeaponsWhere (prisma w) citizenId query)
                   (weapons (prisma w)))) ->
  let shown :=
    List.concat (map (fun k => pageAt citizenId user cad query w
                            (k * MAX_ITEMS_PER_TABLE_PAGE))
                (seq 0 m)) in
  Permutation shown
    (filter (citizenWeaponsWhere (prisma w) citizenId query) (weapons (prisma w)))
  /\ descending Weapon.createdAt shown
  /\ List.length shown = totalCount r0
  /\ forall sorted,
       Permutation sorted
         (filter (citizenWeaponsWhere (prisma w) citizenId query)
                 (weapons (prisma w))) ->
       descending Weapon.createdAt sorted ->
       shown = sorted.
Proof.
  intros Hget Hm Hdates. destruct (getCitizenWeapons_found _ _ _ _ _ _ _ _ Hget)
    as (Hcount & Hpage & _ & _). cbv zeta in *.
  erewrite map_ext; [|intros k; apply Hpage].
  rewrite (concat_windows MAX_ITEMS_PER_TABLE_PAGE m).
  rewrite firstn_all2.
  - split; [apply orderByDesc_Permutation|].
    split; [apply orderByDesc_descending|].
    split; [rewrite Hcount; apply Permutation_length, orderByDesc_Permutation|].
    intros sorted Hperm Hsorted. apply (descending_unique Weapon.createdAt).
    + eapply Permutation_NoDup; [|exact Hdates].
      apply Permutation_map. symmetry. apply orderByDesc_Permutation.
    + rewrite orderByDesc_Permutation. now symmetry.
    + apply orderByDesc_descending.
    + exact Hsorted.
  - rewrite (Permutation_length (orderByDesc_Permutation _ _)).
    now rewrite <- Hcount.
Qed.

Lemma lower_append (a b : string) :
  lower (String.append a b) = String.append (lower a) (lower b).
Proof. induction a as [|c a IH]; simpl; [reflexivity|]. now rewrite IH. Qed.

Lemma lower_empty (q : string) : lower q = "" -> q = "".
Proof. destruct q; [reflexivity|discriminate]. Qed.

(** X14: the search of [getCitizenWeapons] does not look at letter case,
    and an empty [query] searches for nothing: it gives what a call without
    [query] gives. *)
Theorem getCitizenWeapons_query_insensitive (citizenId : string) (user : User.t)
    (cad : Cad) (skip : nat) (w : World) :
  getCitizenWeapons citizenId user cad skip (Some "") w
  = getCitizenWeapons citizenId user cad skip None w
  /\ forall q q', lower q = lower q' ->
       getCitizenWeapons citizenId user cad skip (Some q) w
       = getCitizenWeapons citizenId user cad skip (Some q') w.
Proof.
  split; [reflexivity|]. intros q q' Hq.
  assert (forall x, citizenWeaponsWhere (prisma w) citizenId (Some q) x
                    = citizenWeaponsWhere (prisma w) citizenId (Some q') x) as Hwhere.
  { assert (forall a, containsInsensitive a q = containsInsensitive a q') as Hc.
    { intros a. unfold containsInsensitive, ilike. cbn [lower].
      now rewrite !lower_append, Hq. }
    assert (truthy (Some q) = truthy (Some q')) as Ht.
    { cbn [truthy]. f_equal.
      destruct (String.eqb_spec q ""), (String.eqb_spec q' ""); subst;
        try reflexivity.
      - exfalso. symmetry in Hq. now apply lower_empty in Hq.
      - exfalso. now apply lower_empty in Hq. }
    intros x. unfold citizenWeaponsWhere, modelContains, registrationStatusContains.
    rewrite Ht. f_equal. destruct (truthy (Some q')); [|reflexivity].
    destruct (find _ (weaponValues (prisma w))) as [wv|];
      [destruct (find _ (values (prisma w))) as [v|]|];
      destruct (find _ (values (prisma w))) as [v'|];
      now rewrite ?Hc. }
  unfold getCitizenWeapons. unfold_monad.
  destruct (find _ (citizens (prisma w))); [|reflexivity].
  now rewrite (filter_ext _ _ Hwhere).
Qed.

(** X15: [getCitizenWeapons] answers only for a citizen that exists and,
    when citizens are bound to their user, belongs to the caller; every
    weapon it returns is registered to that citizen. *)
Theorem getCitizenWeapons_own_citizen (citizenId : string) (user : User.t)
    (cad : Cad) (skip : nat) (query : option string) (w w' : World)
    (r : GetCitizenWeaponsData) :
  getCitizenWeapons citizenId user cad skip query w = Returned r w' ->
  (exists c, In c (citizens (prisma w))
     /\ Citizen.id c = citizenId
     /\ (shouldCheckCitizenUserId cad user = true ->
         Citizen.userId c = Some (User.id user)))
  /\ forall x, In x (weapons_ r) ->
       In x (weapons (prisma w)) /\ Weapon.citizenId x = citizenId.
Proof.
  intros Hget. destruct (getCitizenWeapons_found _ _ _ _ _ _ _ _ Hget)
    as (_ & Hpage & -> & Hc).
  split; [exact Hc|]. intros x Hx. rewrite Hpage in Hx.
  apply In_firstn, In_skipn in Hx.
  apply (Permutation_in _ (orderByDesc_Permutation _ _)) in Hx.
  apply filter_In in Hx as [Hin Hx]. split; [exact Hin|].
  now apply citizenWeaponsWhere_spec in Hx.
Qed.

End Pages.

(* ------------------------------------------------------------------------- *)
(** ** More on name-change requests *)

Section MoreOnNameChanges.
Context {E : Env}.

Lemma setNameChangeRequests_same (w : World) :
  setNameChangeRequests (nameChangeRequests (prisma w)) w = w.
Proof. destruct w as [[? ? ? ? ?] ? ?]. reflexivity. Qed.

(** X16: [requestNameChange] only ever files a request: it never renames
    the citizen, and it touches no table but the requests.  When it returns,
    the request it returns has been appended, is pending, belongs to the
    caller, and has an id no request had; when it throws, nothing has
    changed. *)
Theorem requestNameChange_only_files (body : Body) (user : User.t) (w : World) :
  match requestNameChange body user w with
  | Returned r w' =>
      w' = setNameChangeRequests (nameChangeRequests (prisma w) ++ [r]) w
      /\ citizens (prisma w') = citizens (prisma w)
      /\ NameChangeRequest.status r = PENDING
      /\ NameChangeRequest.userId r = Some (User.id user)
      /\ ~ In (NameChangeRequest.id r)
             (map NameChangeRequest.id (nameChangeRequests (prisma w)))
      /\ exists data citizen,
           validateSchema NAME_CHANGE_REQUEST_SCHEMA body = inr data
           /\ citizenOf w (NameChangeData.citizenId data) user = Some citizen
           /\ NameChangeRequest.citizenId r = Citizen.id citizen
           /\ Citizen.userId citizen = Some (User.id user)
           /\ NameChangeRequest.newName r = NameChangeData.newName data
           /\ NameChangeRequest.newSurname r = NameChangeData.newSurname data
  | Thrown _ w' => w' = w
  | Pending => False
  end.
Proof.
  rewrite requestNameChange_eq.
  destruct (validateSchema NAME_CHANGE_REQUEST_SCHEMA body) as [e|data];
    [reflexivity|].
  destruct (citizenOf w (NameChangeData.citizenId data) user) as [c|] eqn:Hc;
    [|reflexivity].
  destruct (_ =? _); [reflexivity|].
  destruct (pendingRequests _ _ _); [|reflexivity].
  split; [reflexivity|]. split; [reflexivity|]. split; [reflexivity|].
  split; [reflexivity|]. split; [apply cuid_fresh|].
  exists data, c. split; [reflexivity|]. split; [exact Hc|].
  unfold citizenOf in Hc. apply find_some in Hc as [_ Hc].
  apply andb_true_iff in Hc as [Hid Hu]. apply String.eqb_eq in Hid.
  split; [now rewrite Hid|]. split; [|split; reflexivity].
  destruct (Citizen.userId c) as [u|]; [|discriminate]. cbn [option_eqb] in Hu.
  apply String.eqb_eq in Hu. now subst.
Qed.

(** X17: a request that has been filed cannot be filed again: the same call
    on the world it leaves is turned down with [citizenId:
    alreadyPendingNameChange], and leaves that world as it is. *)
Theorem requestNameChange_twice (body : Body) (user : User.t) (w w' : World)
    (r : NameChangeRequest.t) :
  requestNameChange body user w = Returned r w' ->
  requestNameChange body user w'
  = Thrown (ExtendedBadRequest "citizenId" "alreadyPendingNameChange") w'.
Proof.
  rewrite !requestNameChange_eq.
  destruct (validateSchema NAME_CHANGE_REQUEST_SCHEMA body) as [e|data];
    [discriminate|].
  destruct (citizenOf w (NameChangeData.citizenId data) user) as [c|] eqn:Hc;
    [|discriminate].
  destruct (_ =? _) eqn:Hname; [discriminate|].
  destruct (pendingRequests _ _ _) eqn:Hpending; [|discriminate].
  intros [= <- <-].
  assert (citizenOf
            (setNameChangeRequests
               (nameChangeRequests (prisma w) ++ [filedRequest w data user]) w)
            (NameChangeData.citizenId data) user = Some c) as -> by exact Hc.
  rewrite Hname. unfold pendingRequests in *.
  cbn [prisma nameChangeRequests setNameChangeRequests]. rewrite filter_app, Hpending.
  cbn [app filter].
  assert (pendingOf (NameChangeData.citizenId data) (User.id user)
            (filedRequest w data user) = true) as ->; [|reflexivity].
  apply pendingOf_inv. repeat split.
Qed.

Lemma string_append_assoc (a b c : string) :
  String.append (String.append a b) c = String.append a (String.append b c).
Proof. induction a as [|x a IH]; simpl; [reflexivity|]. now rewrite IH. Qed.

(** X18: the test for a new name compares the two full names, not the name
    and the surname one by one.  A request that only moves a word from the
    surname to the name, or back, is therefore turned down as not new, though
    both fields differ from the citizen's. *)
Theorem requestNameChange_moved_word (body : Body) (user : User.t)
    (data : NameChangeData.t) (citizen : Citizen.t) (w : World)
    (first middle last : string) :
  validateSchema NAME_CHANGE_REQUEST_SCHEMA body = inr data ->
  citizenOf w (NameChangeData.citizenId data) user = Some citizen ->
  Citizen.name citizen = first ->
  Citizen.surname citizen = fullname middle last ->
  NameChangeData.newName data = fullname first middle ->
  NameChangeData.newSurname data = last ->
  requestNameChange body user w
  = Thrown (ExtendedBadRequest "citizenId" "nameChangeRequestNotNew") w.
Proof.
  intros Hvalid Hcitizen Hn Hs Hn' Hs'.
  rewrite requestNameChange_eq, Hvalid, Hcitizen, Hn, Hs, Hn', Hs'.
  assert (fullname first (fullname middle last)
          = fullname (fullname first middle) last) as ->.
  { unfold fullname. now rewrite !string_append_assoc. }
  now rewrite String.eqb_refl.
Qed.

Lemma userId_is (r : NameChangeRequest.t) (userId : string) :
  option_eqb (NameChangeRequest.userId r) userId = true
  <-> NameChangeRequest.userId r = Some userId.
Proof.
  destruct (NameChangeRequest.userId r) as [u|]; cbn [option_eqb].
  - rewrite String.eqb_eq. split; congruence.
  - split; discriminate.
Qed.

(** X19: [getUserRequests] always returns, and changes nothing.  Its list
    holds exactly the requests the caller has filed, each once per row,
    ordered by [createdAt], newest first. *)
Theorem getUserRequests_lists_own_requests (createdAt : NameChangeRequest.t -> Z)
    (user : User.t) (w : World) :
  exists l,
    getUserRequests createdAt user w = Returned l w
    /\ Permutation l
         (filter (fun r => option_eqb (NameChangeRequest.userId r) (User.id user))
                 (nameChangeRequests (prisma w)))
    /\ descending createdAt l
    /\ forall r, In r l <->
         In r (nameChangeRequests (prisma w))
         /\ NameChangeRequest.userId r = Some (User.id user).
Proof.
  eexists. split; [reflexivity|]. split; [apply orderByDesc_Permutation|].
  split; [apply orderByDesc_descending|]. intros r.
  rewrite <- userId_is, <- (filter_In (fun r0 => option_eqb _ (User.id user))).
  split; apply Permutation_in;
    [|symmetry]; apply orderByDesc_Permutation.
Qed.

(** X20: a request that has just been filed shows up in the caller's list
    of requests, which has grown by one; the list of every other user is what
    it was. *)
Theorem requestNameChange_then_getUserRequests (body : Body) (user : User.t)
    (w w' : World) (r : NameChangeRequest.t)
    (createdAt : NameChangeRequest.t -> Z) :
  requestNameChange body user w = Returned r w' ->
  (exists l l',
     getUserRequests createdAt user w = Returned l w
     /\ getUserRequests createdAt user w' = Returned l' w'
     /\ Permutation l' (r :: l))
  /\ forall other, User.id other <> User.id user ->
       exists l,
         getUserRequests createdAt other w = Returned l w
         /\ getUserRequests createdAt other w' = Returned l w'.
Proof.
  rewrite requestNameChange_eq.
  destruct (validateSchema NAME_CHANGE_REQUEST_SCHEMA body) as [e|data];
    [discriminate|].
  destruct (citizenOf w (NameChangeData.citizenId data) user) as [c|];
    [|discriminate].
  destruct (_ =? _); [discriminate|].
  destruct (pendingRequests _ _ _); [|discriminate].
  intros [= <- <-].
  assert (NameChangeRequest.userId (filedRequest w data user) = Some (User.id user))
    as Hu by reflexivity.
  generalize dependent (filedRequest w data user). intros r Hu.
  unfold getUserRequests, nameChangeRequest_findMany, gets.
  cbn [prisma nameChangeRequests setNameChangeRequests]. split.
  - do 2 eexists. split; [reflexivity|]. split; [reflexivity|].
    rewrite filter_app. cbn [filter]. rewrite (proj2 (userId_is r _) Hu).
    rewrite !orderByDesc_Permutation. symmetry. apply Permutation_cons_append.
  - intros other Hother. eexists. split; [reflexivity|].
    rewrite filter_app. cbn [filter].
    destruct (option_eqb (NameChangeRequest.userId r) (User.id other)) eqn:Ho.
    + apply userId_is in Ho. congruence.
    + now rewrite app_nil_r.
Qed.

End MoreOnNameChanges.

(* ------------------------------------------------------------------------- *)
(** ** More on the active-officer resolver *)

Section MoreOnActiveOfficer.
Context {L : LeoEnv}.

(** X21: what [getActiveOfficer] does to the world.  It always settles.  It
    never changes the units, the officers, the CAD settings or the clock.  The
    context is changed in one case only: when the call throws [BadRequest
    noActiveOfficer], the entries under the key ["activeOfficer"] are gone
    and every other entry is kept. *)
Theorem getActiveOfficer_effects (req : Req) (user : User.t) (w : LeoWorld) :
  exists w',
    finalState (getActiveOfficer req user w) = Some w'
    /\ combinedLeoUnits w' = combinedLeoUnits w
    /\ officers w' = officers w
    /\ cads w' = cads w
    /\ clock w' = clock w
    /\ (getActiveOfficer req user w <> Thrown (BadRequest "noActiveOfficer") w' ->
        ctx w' = ctx w)
    /\ (getActiveOfficer req user w = Thrown (BadRequest "noActiveOfficer") w' ->
        forall k v, In (k, v) (ctx w') <-> In (k, v) (ctx w) /\ k <> "activeOfficer").
Proof.
  rewrite getActiveOfficer_eq.
  destruct (isFromDispatch req).
  { destruct (hasPermission user [Permissions_Dispatch] User.isDispatch);
      eexists; (split; [reflexivity|]); do 4 (split; [reflexivity|]);
      (split; [intros _; reflexivity | intros [=]]). }
  destruct (hasPermission user defaultLeoPermissions User.isLeo).
  2: { eexists; (split; [reflexivity|]); do 4 (split; [reflexivity|]);
       (split; [intros _; reflexivity | intros [=]]). }
  destruct (find (combinedUnitWhere (User.id user)) (combinedLeoUnits w)).
  { eexists; (split; [reflexivity|]); do 4 (split; [reflexivity|]);
      (split; [intros _; reflexivity | intros [=]]). }
  destruct (find _ (officers w)).
  { eexists; (split; [reflexivity|]); do 4 (split; [reflexivity|]);
      (split; [intros _; reflexivity | intros [=]]). }
  eexists. split; [reflexivity|]. do 4 (split; [reflexivity|]).
  split; [intros Hne; now contradiction Hne|].
  intros _ k v. unfold withoutActiveOfficer, afterLookups. cbn [ctx].
  rewrite filter_In. cbn [fst]. rewrite negb_true_iff, String.eqb_neq. reflexivity.
Qed.

(** X22: which queries are sent.  With the dispatch header, or without the
    default LEO permissions, none.  Otherwise the three lookups are sent, in
    the order combined unit, CAD settings, officer, whatever they find: the
    officer lookup is made even when a combined unit has been found. *)
Theorem getActiveOfficer_queries (req : Req) (user : User.t) (w : LeoWorld) :
  option_map queries (finalState (getActiveOfficer req user w))
  = Some (queries w
          ++ (if negb (isFromDispatch req)
                 && hasPermission user defaultLeoPermissions User.isLeo
              then [combinedLeoUnit_findFirst; cad_findFirst; officer_findFirst]
              else [])).
Proof.
  rewrite getActiveOfficer_eq.
  destruct (isFromDispatch req); cbn [negb andb].
  { destruct (hasPermission user [Permissions_Dispatch] User.isDispatch);
      cbn [finalState option_map]; now rewrite app_nil_r. }
  destruct (hasPermission user defaultLeoPermissions User.isLeo).
  2: { cbn [finalState option_map]. now rewrite app_nil_r. }
  destruct (find (combinedUnitWhere (User.id user)) (combinedLeoUnits w)).
  { cbn [finalState option_map afterLookups queries]. now rewrite <- !app_assoc. }
  destruct (find _ (officers w));
    cbn [finalState option_map withoutActiveOfficer afterLookups queries];
    now rewrite <- !app_assoc.
Qed.

(** X23: when the answer is [null], and when it is [BadRequest
    noActiveOfficer].  [null] is returned exactly for a request with the
    dispatch header from a user with the dispatch permission.  [noActiveOfficer]
    is thrown exactly when the request has no dispatch header, the user holds
    the default LEO permissions, no combined unit is selected for the user
    and no officer is. *)
Theorem getActiveOfficer_null_and_noActiveOfficer (req : Req) (user : User.t)
    (w : LeoWorld) :
  ((exists w', getActiveOfficer req user w = Returned None w')
   <-> isFromDispatch req = true
       /\ hasPermission user [Permissions_Dispatch] User.isDispatch = true)
  /\ ((exists w', getActiveOfficer req user w
                  = Thrown (BadRequest "noActiveOfficer") w')
      <-> isFromDispatch req = false
          /\ hasPermission user defaultLeoPermissions User.isLeo = true
          /\ (forall u, In u (combinedLeoUnits w) ->
                combinedUnitWhere (User.id user) u = false)
          /\ (forall o, In o (officers w) ->
                officerWhere (User.id user) (unitsInactivityFilter w) o = false)).
Proof.
  rewrite getActiveOfficer_eq.
  destruct (isFromDispatch req).
  { destruct (hasPermission user [Permissions_Dispatch] User.isDispatch).
    - split; split.
      + auto.
      + intros _. eexists. reflexivity.
      + intros (w' & [=]).
      + intros ([=] & _).
    - split; split.
      + intros (w' & [=]).
      + intros (_ & [=]).
      + intros (w' & [=]).
      + intros ([=] & _). }
  destruct (hasPermission user defaultLeoPermissions User.isLeo).
  2: { split; split.
       - intros (w' & [=]).
       - intros ([=] & _).
       - intros (w' & [=]).
       - intros (_ & [=] & _). }
  destruct (find (combinedUnitWhere (User.id user)) (combinedLeoUnits w))
    as [u|] eqn:Hu.
  { split; split.
    - intros (w' & [=]).
    - intros ([=] & _).
    - intros (w' & [=]).
    - intros (_ & _ & Hnone & _). apply find_some in Hu as [Hin Hu].
      rewrite (Hnone u Hin) in Hu. discriminate. }
  destruct (find _ (officers w)) as [o|] eqn:Ho.
  { split; split.
    - intros (w' & [=]).
    - intros ([=] & _).
    - intros (w' & [=]).
    - intros (_ & _ & _ & Hnone). apply find_some in Ho as [Hin Ho].
      rewrite (Hnone o Hin) in Ho. discriminate. }
  split; split.
  - intros (w' & [=]).
  - intros ([=] & _).
  - intros _. split; [reflexivity|]. split; [reflexivity|].
    split; [exact (find_none _ _ Hu) | exact (find_none _ _ Ho)].
  - intros _. eexists. reflexivity.
Qed.

End MoreOnActiveOfficer.

(* ------------------------------------------------------------------------- *)
(** ** Identity of an updated weapon, denied access, combined units *)

Section Identity.
Context {E : Env}.

(** X24: an update changes the model, the registration status and possibly
    the serial number of one weapon, and nothing else: the weapon keeps its
    id, its citizen, its user and its date, every row stays where it is, and
    the weapons with another id are untouched.  In particular the [citizenId]
    of the body is never looked at: two bodies that differ in nothing else
    have the same outcome. *)
Theorem updateWeapon_keeps_identity (fuel : nat) (user : User.t) (cad : Cad)
    (weaponId : string) (body : Body) (w w' : World) (r : Weapon.t) :
  updateWeapon fuel user cad weaponId body w = Returned r w' ->
  (exists x,
     find (fun y => Weapon.id y =? weaponId) (weapons (prisma w)) = Some x
     /\ Weapon.id r = weaponId
     /\ Weapon.citizenId r = Weapon.citizenId x
     /\ Weapon.userId r = Weapon.userId x
     /\ Weapon.createdAt r = Weapon.createdAt x)
  /\ map Weapon.id (weapons (prisma w')) = map Weapon.id (weapons (prisma w))
  /\ map Weapon.citizenId (weapons (prisma w'))
     = map Weapon.citizenId (weapons (prisma w))
  /\ (forall i y, nth_error (weapons (prisma w)) i = Some y ->
        Weapon.id y <> weaponId -> nth_error (weapons (prisma w')) i = Some y)
  /\ (forall body' data data',
        validateSchema WEAPON_SCHEMA body = inr data ->
        validateSchema WEAPON_SCHEMA body' = inr data' ->
        WeaponData.model data' = WeaponData.model data ->
        WeaponData.registrationStatus data' = WeaponData.registrationStatus data ->
        WeaponData.serialNumber data' = WeaponData.serialNumber data ->
        updateWeapon fuel user cad weaponId body' w = Returned r w').
Proof.
  intros Hrun. pose proof (updateWeapon_cases fuel user cad weaponId body w) as H.
  rewrite Hrun in H.
  destruct H as (data & x & modelId & sn & _ & Hx & -> & Hws & _).
  split; [|split; [|split; [|split]]].
  - exists x. split; [exact Hx|]. cbn [applyWeaponUpdate Weapon.id Weapon.citizenId
      Weapon.userId Weapon.createdAt]. split; [exact (find_id_eq _ _ _ Hx)|].
    split; [reflexivity|]. split; reflexivity.
  - rewrite Hws, map_map. apply map_ext. intros y.
    destruct (Weapon.id y =? weaponId); reflexivity.
  - rewrite Hws, map_map. apply map_ext. intros y.
    destruct (Weapon.id y =? weaponId); reflexivity.
  - intros i y Hy Hid. rewrite Hws, nth_error_map, Hy. cbn [option_map].
    apply String.eqb_neq in Hid. now rewrite Hid.
  - intros body' d d' Hv Hv' Hm Hs Hsn. rewrite <- Hrun.
    unfold updateWeapon. unfold_monad. rewrite Hv, Hv', Hm, Hs, Hsn. reflexivity.
Qed.

(** X25: when citizens are bound to their user and [canManageInvariant]
    turns the caller down, each of the three writing endpoints throws what
    [canManageInvariant] threw, before anything is written: the world is as it
    was, also when custom values are enabled. *)
Theorem weapon_endpoints_access_denied (user : User.t) (cad : Cad) (e : Exception)
    (w : World) :
  shouldCheckCitizenUserId cad user = true ->
  (forall weaponId,
      canManageInvariant
        (weaponUserId (find (fun y => Weapon.id y =? weaponId) (weapons (prisma w))))
        user (NotFound "notFound") = inl e ->
      deleteWeapon user cad weaponId w = Thrown e w
      /\ forall fuel body data,
           validateSchema WEAPON_SCHEMA body = inr data ->
           updateWeapon fuel user cad weaponId body w = Thrown e w)
  /\ (forall fuel body data,
      validateSchema WEAPON_SCHEMA body = inr data ->
      canManageInvariant
        (citizenUserId
           (find (fun c => Citizen.id c =? WeaponData.citizenId data)
              (citizens (prisma w))))
        user (NotFound "notFound") = inl e ->
      registerWeapon fuel user cad body w = Thrown e w).
Proof.
  intros Hcheck. split.
  - intros weaponId Hdenied. split.
    + unfold deleteWeapon. unfold_monad. now rewrite Hcheck, Hdenied.
    + intros fuel body data Hvalid. unfold updateWeapon. unfold_monad.
      now rewrite Hvalid, Hcheck, Hdenied.
  - intros fuel body data Hvalid Hdenied. unfold registerWeapon. unfold_monad.
    now rewrite Hvalid, Hcheck, Hdenied.
Qed.

End Identity.

Section CombinedUnits.
Context {L : LeoEnv}.

(** X26: when the answer is a combined unit, the request had no dispatch
    header, the user holds the default LEO permissions, the unit is one of
    the stored units, one of its officers belongs to the user, and its status,
    if it has one, does not say [SET_OFF_DUTY]. *)
Theorem getActiveOfficer_combined_unit (req : Req) (user : User.t) (w w' : LeoWorld)
    (u : CombinedLeoUnit.t) :
  getActiveOfficer req user w = Returned (Some (IsCombinedUnit u)) w' ->
  isFromDispatch req = false
  /\ hasPermission user defaultLeoPermissions User.isLeo = true
  /\ In u (combinedLeoUnits w)
  /\ (exists o, In o (CombinedLeoUnit.officers u)
        /\ Officer.userId o = Some (User.id user))
  /\ (forall st, CombinedLeoUnit.status u = Some st ->
        StatusValue.shouldDo st <> "SET_OFF_DUTY")
  /\ w' = afterLookups w.
Proof.
  rewrite getActiveOfficer_eq.
  destruct (isFromDispatch req).
  { destruct (hasPermission user [Permissions_Dispatch] User.isDispatch);
      discriminate. }
  destruct (hasPermission user defaultLeoPermissions User.isLeo); [|discriminate].
  destruct (find (combinedUnitWhere (User.id user)) (combinedLeoUnits w))
    as [u'|] eqn:Hfind.
  - intros [= -> <-]. apply find_some in Hfind as [Hin Hwhere].
    apply combinedUnitWhere_spec in Hwhere as [Hstatus Hofficer].
    repeat (split; [reflexivity|]). split; [exact Hin|]. split; [exact Hofficer|].
    split; [exact Hstatus | reflexivity].
  - destruct (find _ (officers w)); discriminate.
Qed.

End CombinedUnits.

(* ------------------------------------------------------------------------- *)
(** ** The further statements applied to the demo database *)

(** Names the outcome of the run a statement is about. *)
Ltac run_model r w' :=
  match goal with
  | |- match ?run with _ => _ end =>
      let e := fresh "e" in destruct run as [r w'|e w'|] eqn:Hrun
  end.

Lemma registerWeapon_created_weapon_witness :
  match registerWeapon 5 alice demoCad
          (WeaponBody (WeaponData.mk "c1" "m1" "s1" None)) demoWorld with
  | Returned r w' =>
      weapons (prisma w') = weapons demoDB ++ [r]
      /\ Weapon.userId r = Some "u1"
      /\ Weapon.createdAt r = 100%Z
  | _ => False
  end.
Proof.
  run_model r w';
    [|vm_compute in Hrun; discriminate Hrun ..].
  destruct (registerWeapon_created_weapon (E:=demoEnv) 5 alice demoCad _ demoWorld
              r w' Hrun)
    as (data & c & _ & _ & Hws & _ & _ & Hu & _ & Hat & _).
  split; [exact Hws|]. split; [exact Hu | exact Hat].
Defined.

(** With custom values enabled, the rows made for the model ["Revolver"] stay
    although the registration is turned down for its serial number. *)
Lemma registerWeapon_custom_value_is_kept_witness :
  match registerWeapon 5 alice (mkDemoCad true true)
          (WeaponBody (WeaponData.mk "c1" "Revolver" "s1" (Some "xyz-1")))
          demoWorld with
  | Thrown e w' =>
      e = ExtendedBadRequest "serialNumber" "serialNumberInUse"
      /\ exists v, values (prisma w') = values demoDB ++ [v]
           /\ Value.value v = "Revolver"
  | _ => False
  end.
Proof.
  match goal with
  | |- match ?run with _ => _ end => destruct run as [r w'|e w'|] eqn:Hrun
  end;
    [vm_compute in Hrun; discriminate Hrun| |vm_compute in Hrun; discriminate Hrun].
  split; [vm_compute in Hrun; congruence|].
  destruct (registerWeapon_custom_value_is_kept (E:=demoEnv) 5 alice
              (mkDemoCad true true)
              (WeaponBody (WeaponData.mk "c1" "Revolver" "s1" (Some "xyz-1")))
              (WeaponData.mk "c1" "Revolver" "s1" (Some "xyz-1")) demoWorld w'
              eq_refl eq_refl)
    as (v & wv & Hv & _ & Hvalue & _).
  - intros _. reflexivity.
  - intros _. discriminate.
  - rewrite Hrun. reflexivity.
  - exists v. split; [exact Hv | exact Hvalue].
Defined.

Lemma deleteWeapon_removes_the_weapon_witness :
  match deleteWeapon alice demoCad "w1" demoWorld with
  | Returned b w' =>
      b = true
      /\ exists before x after,
           weapons demoDB = before ++ x :: after
           /\ Weapon.id x = "w1"
           /\ weapons (prisma w') = before ++ after
  | _ => False
  end.
Proof.
  run_model b w';
    [|vm_compute in Hrun; discriminate Hrun ..].
  destruct (deleteWeapon_removes_the_weapon (E:=demoEnv) alice demoCad "w1" demoWorld
              w' b demoDB_ids_unique Hrun)
    as (Hb & before & x & after & Hsplit & Hid & _ & Hrest & _).
  split; [exact Hb|]. exists before, x, after. auto.
Defined.

Lemma registerWeapon_then_deleteWeapon_witness :
  match registerWeapon 5 alice demoCad
          (WeaponBody (WeaponData.mk "c1" "m1" "s1" None)) demoWorld with
  | Returned r w1 =>
      exists w2,
        deleteWeapon alice demoCad (Weapon.id r) w1 = Returned true w2
        /\ weapons (prisma w2) = weapons demoDB
  | _ => False
  end.
Proof.
  run_model r w1;
    [|vm_compute in Hrun; discriminate Hrun ..].
  apply (registerWeapon_then_deleteWeapon (E:=demoEnv) 5 alice alice demoCad demoCad
           _ demoWorld w1 r Hrun).
  intros _. pose proof Hrun as Hr. vm_compute in Hr. injection Hr as <- _.
  reflexivity.
Defined.


Lemma registerWeapon_twice_witness :
  match registerWeapon 5 alice demoCad
          (WeaponBody (WeaponData.mk "c1" "m1" "s1" (Some "New-1"))) demoWorld with
  | Returned r w1 =>
      exists w2,
        registerWeapon 0 alice demoCad
          (WeaponBody (WeaponData.mk "c1" "m1" "s1" (Some "New-1"))) w1
        = Thrown (ExtendedBadRequest "serialNumber" "serialNumberInUse") w2
        /\ weapons (prisma w2) = weapons (prisma w1)
  | _ => False
  end.
Proof.
  run_model r w1;
    [|vm_compute in Hrun; discriminate Hrun ..].
  apply (registerWeapon_twice (E:=demoEnv) 5 0 alice demoCad
           (WeaponBody (WeaponData.mk "c1" "m1" "s1" (Some "New-1")))
           (WeaponData.mk "c1" "m1" "s1" (Some "New-1")) "New-1" demoWorld w1 r
           eq_refl eq_refl).
  - discriminate.
  - reflexivity.
  - exact Hrun.
Defined.

Lemma empty_serial_number_is_none_witness :
  registerWeapon 5 alice demoCad
    (WeaponBody (WeaponData.mk "c1" "m1" "s1" (Some ""))) demoWorld
  = registerWeapon 5 alice demoCad
      (WeaponBody (WeaponData.mk "c1" "m1" "s1" None)) demoWorld
  /\ updateWeapon 5 alice demoCad "w1"
       (WeaponBody (WeaponData.mk "c1" "m1" "s1" (Some ""))) demoWorld
     = updateWeapon 5 alice demoCad "w1"
         (WeaponBody (WeaponData.mk "c1" "m1" "s1" None)) demoWorld.
Proof.
  exact (empty_serial_number_is_none (E:=demoEnv) 5 alice demoCad "w1"
           (WeaponBody (WeaponData.mk "c1" "m1" "s1" (Some "")))
           (WeaponBody (WeaponData.mk "c1" "m1" "s1" None))
           (WeaponData.mk "c1" "m1" "s1" (Some ""))
           (WeaponData.mk "c1" "m1" "s1" None) demoWorld
           eq_refl eq_refl eq_refl eq_refl eq_refl eq_refl eq_refl).
Defined.

Lemma getCitizenWeapons_newest_first_witness :
  match getCitizenWeapons "c1" alice demoCad 0 None demoWorld with
  | Returned r _ => descending Weapon.createdAt (weapons_ r)
  | _ => False
  end.
Proof.
  run_model r w';
    [|vm_compute in Hrun; discriminate Hrun ..].
  exact (getCitizenWeapons_newest_first (E:=demoEnv) "c1" alice demoCad 0 None
           demoWorld w' r Hrun).
Defined.

(** The fourteen weapons of citizen ["c1"] fill two pages, the last
    registered first. *)
Lemma getCitizenWeapons_pages_tile_witness :
  match getCitizenWeapons "c1" alice demoCad 0 None busyWorld with
  | Returned r0 _ =>
      List.concat
        (map (fun k => pageAt "c1" alice demoCad None busyWorld
                         (k * MAX_ITEMS_PER_TABLE_PAGE))
             (seq 0 2))
      = rev (map numbered (seq 0 14))
  | _ => False
  end.
Proof.
  run_model r0 w0;
    [|vm_compute in Hrun; discriminate Hrun ..].
  refine (proj2 (proj2 (proj2
            (getCitizenWeapons_pages_tile (E:=demoEnv) "c1" alice demoCad
               None busyWorld w0 r0 2 Hrun _ _))) _ _ _).
  - pose proof Hrun as Hr. vm_compute in Hr. injection Hr as <- _.
    vm_compute. lia.
  - vm_compute. repeat constructor; simpl; intuition discriminate.
  - symmetry. apply Permutation_rev.
  - vm_compute. repeat constructor; discriminate.
Defined.

Lemma getCitizenWeapons_own_citizen_witness :
  match getCitizenWeapons "c1" alice demoCad 0 None demoWorld with
  | Returned r _ =>
      exists c, In c (citizens demoDB) /\ Citizen.id c = "c1"
        /\ (shouldCheckCitizenUserId demoCad alice = true ->
            Citizen.userId c = Some "u1")
  | _ => False
  end.
Proof.
  run_model r w';
    [|vm_compute in Hrun; discriminate Hrun ..].
  exact (proj1 (getCitizenWeapons_own_citizen (E:=demoEnv) "c1" alice demoCad 0 None
                  demoWorld w' r Hrun)).
Defined.

Lemma requestNameChange_twice_witness :
  match requestNameChange (NameChangeBody (NameChangeData.mk "c1" "Anna" "Lee"))
          alice demoWorld with
  | Returned r w' =>
      requestNameChange (NameChangeBody (NameChangeData.mk "c1" "Anna" "Lee")) alice w'
      = Thrown (ExtendedBadRequest "citizenId" "alreadyPendingNameChange") w'
  | _ => False
  end.
Proof.
  run_model r w';
    [|vm_compute in Hrun; discriminate Hrun ..].
  exact (requestNameChange_twice (E:=demoEnv) _ alice demoWorld w' r Hrun).
Defined.

(** Mary, surname Ann Lee, asks to be Mary Ann, surname Lee. *)
Lemma requestNameChange_moved_word_witness :
  requestNameChange (NameChangeBody (NameChangeData.mk "c3" "Mary Ann" "Lee")) alice
    (mkWorld (mkDB [Citizen.mk "c3" (Some "u1") "Mary" "Ann Lee"] [] [] [] []) 0 0)
  = Thrown (ExtendedBadRequest "citizenId" "nameChangeRequestNotNew")
      (mkWorld (mkDB [Citizen.mk "c3" (Some "u1") "Mary" "Ann Lee"] [] [] [] []) 0 0).
Proof.
  exact (requestNameChange_moved_word (E:=demoEnv)
           (NameChangeBody (NameChangeData.mk "c3" "Mary Ann" "Lee")) alice
           (NameChangeData.mk "c3" "Mary Ann" "Lee")
           (Citizen.mk "c3" (Some "u1") "Mary" "Ann Lee")
           (mkWorld (mkDB [Citizen.mk "c3" (Some "u1") "Mary" "Ann Lee"] [] [] [] [])
              0 0)
           "Mary" "Ann" "Lee" eq_refl eq_refl eq_refl eq_refl eq_refl eq_refl).
Defined.

Lemma requestNameChange_then_getUserRequests_witness :
  match requestNameChange (NameChangeBody (NameChangeData.mk "c1" "Anna" "Lee"))
          alice demoWorld with
  | Returned r w' =>
      exists l l',
        getUserRequests (fun _ => 0%Z) alice demoWorld = Returned l demoWorld
        /\ getUserRequests (fun _ => 0%Z) alice w' = Returned l' w'
        /\ Permutation l' (r :: l)
  | _ => False
  end.
Proof.
  run_model r w';
    [|vm_compute in Hrun; discriminate Hrun ..].
  exact (proj1 (requestNameChange_then_getUserRequests (E:=demoEnv) _ alice demoWorld
                  w' r (fun _ => 0%Z) Hrun)).
Defined.

Lemma updateWeapon_keeps_identity_witness :
  match updateWeapon 5 alice demoCad "w2"
          (WeaponBody (WeaponData.mk "c2" "m1" "s1" (Some "New-2"))) demoWorld with
  | Returned r w' =>
      exists x,
        find (fun y => Weapon.id y =? "w2") (weapons demoDB) = Some x
        /\ Weapon.id r = "w2"
        /\ Weapon.citizenId r = Weapon.citizenId x
        /\ Weapon.userId r = Weapon.userId x
        /\ Weapon.createdAt r = Weapon.createdAt x
  | _ => False
  end.
Proof.
  run_model r w'; [|vm_compute in Hrun; discriminate Hrun ..].
  exact (proj1 (updateWeapon_keeps_identity (E:=demoEnv) 5 alice demoCad "w2" _
                  demoWorld w' r Hrun)).
Defined.

(** Bob is not the owner of weapon ["w1"] nor of citizen ["c1"]. *)
Lemma weapon_endpoints_access_denied_witness :
  deleteWeapon bob demoCad "w1" demoWorld = Thrown (NotFound "notFound") demoWorld
  /\ registerWeapon 5 bob (mkDemoCad true true)
       (WeaponBody (WeaponData.mk "c1" "Revolver" "s1" None)) demoWorld
     = Thrown (NotFound "notFound") demoWorld.
Proof.
  split.
  - apply (weapon_endpoints_access_denied (E:=demoEnv) bob demoCad
             (NotFound "notFound") demoWorld eq_refl).
    reflexivity.
  - apply (proj2 (weapon_endpoints_access_denied (E:=demoEnv) bob (mkDemoCad true true)
                    (NotFound "notFound") demoWorld eq_refl)
             5 _ (WeaponData.mk "c1" "Revolver" "s1" None)); reflexivity.
Defined.

Lemma getActiveOfficer_combined_unit_witness :
  match getActiveOfficer plainRequest bob demoLeoWorld with
  | Returned (Some (IsCombinedUnit u)) _ =>
      exists o, In o (CombinedLeoUnit.officers u) /\ Officer.userId o = Some "u2"
  | _ => False
  end.
Proof.
  match goal with
  | |- match ?run with _ => _ end => destruct run as [[[u|o]|] w'|e w'|] eqn:Hrun
  end; try (vm_compute in Hrun; discriminate Hrun).
  exact (proj1 (proj2 (proj2 (proj2
           (getActiveOfficer_combined_unit (L:=demoLeoEnv) plainRequest bob
              demoLeoWorld w' u Hrun))))).
Defined.

(** A user with LEO permissions on duty in a combined unit: all three
    lookups are logged. *)
Example three_lookups_are_logged :
  option_map queries (finalState (getActiveOfficer plainRequest bob demoLeoWorld))
  = Some [combinedLeoUnit_findFirst; cad_findFirst; officer_findFirst].
Proof. vm_compute. reflexivity. Qed.

(** The allocator asked for the empty string while a weapon without serial
    number exists. *)
Example allocator_never_settles_on_empty_string :
  generateOrValidateSerialNumber 1000 (Some "") None
    (setWeapons [unmarkedWeapon] demoWorld)
  = Pending.
Proof. vm_compute. reflexivity. Qed.
